(** * Task Management API: a shallow embedding of [main.py]

    The service is a FastAPI application over one SQLAlchemy table, [tasks].
    Three layers of the source are embedded:

    - the declarative schemas ([TaskBase], [TaskCreate], [TaskUpdate]) and the
      parameter annotations of the endpoints, which are the request
      validation that runs before an endpoint body is entered;
    - the table [TaskModel] with its column defaults and constraints;
    - the five endpoint bodies, written in a state-and-failure monad over the
      database session.

    Conventions.  A Python [str] is a [string], one character per code point,
    and [len] is [String.length].  A [datetime] is an integer number of
    microseconds.  A [uuid.UUID] is its 128-bit integer value. *)

From Stdlib Require Import ZArith NArith List String Ascii Bool Lia Arith.
Import ListNotations.
Local Open Scope string_scope.
Local Open Scope Z_scope.


(** ** Models *)

Inductive TaskStatus : Type :=
| CREATED
| IN_PROGRESS
| COMPLETED.

Definition TaskStatus_eqb (a b : TaskStatus) : bool :=
  match a, b with
  | CREATED, CREATED => true
  | IN_PROGRESS, IN_PROGRESS => true
  | COMPLETED, COMPLETED => true
  | _, _ => false
  end.

(** [TaskStatus.<member>.value] *)
Definition TaskStatus_value (s : TaskStatus) : string :=
  match s with
  | CREATED => "created"
  | IN_PROGRESS => "in_progress"
  | COMPLETED => "completed"
  end.

(** [TaskStatus(text)]: lookup of a member by value. *)
Definition TaskStatus_of_value (s : string) : option TaskStatus :=
  if String.eqb s "created" then Some CREATED
  else if String.eqb s "in_progress" then Some IN_PROGRESS
  else if String.eqb s "completed" then Some COMPLETED
  else None.

Definition UUID : Type := N.
Definition datetime : Type := Z.

(** A row of the table [tasks].  [name] and [status] are [nullable=False],
    so a stored row always carries them; [description] may be NULL. *)
Record TaskModel : Type := mkTask {
  uuid : UUID;
  name : string;
  description : option string;
  status : TaskStatus;
  created_at : datetime;
  updated_at : datetime
}.

(** A mapped instance held by the session between a query and [commit]:
    [setattr] may put [None] into any attribute, the constraints are only
    checked when the pending state is flushed. *)
Record TaskObject : Type := mkObject {
  o_uuid : UUID;
  o_name : option string;
  o_description : option string;
  o_status : option TaskStatus;
  o_created_at : datetime;
  o_updated_at : datetime
}.

Definition load (r : TaskModel) : TaskObject :=
  {| o_uuid := uuid r;
     o_name := Some (name r);
     o_description := description r;
     o_status := Some (status r);
     o_created_at := created_at r;
     o_updated_at := updated_at r |}.

(** Flushing a pending instance: the NOT NULL columns refuse [None]. *)
Definition flush (o : TaskObject) : option TaskModel :=
  match o_name o, o_status o with
  | Some n, Some s =>
      Some {| uuid := o_uuid o;
              name := n;
              description := o_description o;
              status := s;
              created_at := o_created_at o;
              updated_at := o_updated_at o |}
  | _, _ => None
  end.

(** ** Pydantic schemas *)

(** A JSON scalar as it arrives in a request body. *)
Inductive json : Type :=
| JNull
| JString (s : string)
| JNumber (z : Z)
| JBool (b : bool).

(** [Field(..., min_length, max_length)] on a [str]. *)
Definition length_ok (min_length max_length : nat) (s : string) : bool :=
  (Nat.leb min_length (String.length s)) && (Nat.leb (String.length s) max_length).

(** [str = Field(..., min_length=lo, max_length=hi)]: a required string. *)
Definition validate_str (lo hi : nat) (j : json) : option string :=
  match j with
  | JString s => if length_ok lo hi s then Some s else None
  | _ => None
  end.

(** [Optional[str] = Field(None, min_length=lo, max_length=hi)]: [null] is
    accepted as [None], a string is checked against the bounds. *)
Definition validate_optional_str (lo hi : nat) (j : json) : option (option string) :=
  match j with
  | JNull => Some None
  | JString s => if length_ok lo hi s then Some (Some s) else None
  | _ => None
  end.

(** [Optional[TaskStatus] = None] *)
Definition validate_optional_status (j : json) : option (option TaskStatus) :=
  match j with
  | JNull => Some None
  | JString s =>
      match TaskStatus_of_value s with
      | Some st => Some (Some st)
      | None => None
      end
  | _ => None
  end.

(** The JSON object posted to [/tasks/]; [None] is a missing key. *)
Record create_body : Type := mkCreateBody {
  cb_name : option json;
  cb_description : option json
}.

(** [TaskCreate(TaskBase)] *)
Record TaskCreate : Type := mkTaskCreate {
  tc_name : string;
  tc_description : option string
}.

Definition parse_TaskCreate (b : create_body) : option TaskCreate :=
  match cb_name b with
  | None => None
  | Some jn =>
      match validate_str 1 255 jn with
      | None => None
      | Some n =>
          match cb_description b with
          | None => Some {| tc_name := n; tc_description := None |}
          | Some jd =>
              match validate_optional_str 0 1000 jd with
              | None => None
              | Some d => Some {| tc_name := n; tc_description := d |}
              end
          end
      end
  end.

(** The JSON object sent with [PUT /tasks/{task_uuid}]. *)
Record update_body : Type := mkUpdateBody {
  ub_name : option json;
  ub_description : option json;
  ub_status : option json
}.

(** A field of a validated model together with its membership in
    [model_fields_set]: [Unset] when the key was missing from the input,
    [SetTo v] when it was supplied (possibly as [null]). *)
Inductive field (A : Type) : Type :=
| Unset
| SetTo (v : option A).
Arguments Unset {A}.
Arguments SetTo {A} v.

(** [TaskUpdate(BaseModel)] *)
Record TaskUpdate : Type := mkTaskUpdate {
  tu_name : field string;
  tu_description : field string;
  tu_status : field TaskStatus
}.

Definition parse_field {A : Type} (validate : json -> option (option A))
    (j : option json) : option (field A) :=
  match j with
  | None => Some Unset
  | Some v =>
      match validate v with
      | Some a => Some (SetTo a)
      | None => None
      end
  end.

Definition parse_TaskUpdate (b : update_body) : option TaskUpdate :=
  match parse_field (validate_optional_str 1 255) (ub_name b),
        parse_field (validate_optional_str 0 1000) (ub_description b),
        parse_field validate_optional_status (ub_status b) with
  | Some n, Some d, Some s =>
      Some {| tu_name := n; tu_description := d; tu_status := s |}
  | _, _, _ => None
  end.

(** A value stored by [setattr]: the three patchable attributes hold either
    text or a status. *)
Inductive attr_value : Type :=
| VText (v : option string)
| VStatus (v : option TaskStatus).

Definition dict_item {A : Type} (key : string) (inj : option A -> attr_value)
    (f : field A) : list (string * attr_value) :=
  match f with
  | Unset => []
  | SetTo v => [(key, inj v)]
  end.

(** [task_update.dict(exclude_unset=True)]: the supplied fields only, in
    declaration order. *)
Definition dict_exclude_unset (u : TaskUpdate) : list (string * attr_value) :=
  dict_item "name" VText (tu_name u)
  ++ dict_item "description" VText (tu_description u)
  ++ dict_item "status" VStatus (tu_status u).

(** [setattr(db_task, field, value)] *)
Definition setattr (o : TaskObject) (key : string) (v : attr_value) : TaskObject :=
  match v with
  | VText t =>
      if String.eqb key "name" then
        {| o_uuid := o_uuid o; o_name := t; o_description := o_description o;
           o_status := o_status o; o_created_at := o_created_at o;
           o_updated_at := o_updated_at o |}
      else if String.eqb key "description" then
        {| o_uuid := o_uuid o; o_name := o_name o; o_description := t;
           o_status := o_status o; o_created_at := o_created_at o;
           o_updated_at := o_updated_at o |}
      else o
  | VStatus s =>
      if String.eqb key "status" then
        {| o_uuid := o_uuid o; o_name := o_name o; o_description := o_description o;
           o_status := s; o_created_at := o_created_at o;
           o_updated_at := o_updated_at o |}
      else o
  end.

(** [for field, value in update_data.items(): setattr(db_task, field, value)] *)
Definition apply_update_data (o : TaskObject) (items : list (string * attr_value))
    : TaskObject :=
  fold_left (fun acc kv => setattr acc (fst kv) (snd kv)) items o.

Definition set_updated_at (o : TaskObject) (t : datetime) : TaskObject :=
  {| o_uuid := o_uuid o; o_name := o_name o; o_description := o_description o;
     o_status := o_status o; o_created_at := o_created_at o;
     o_updated_at := t |}.

(** ** The database session *)

(** A [Query] object as the endpoints build it: optional WHERE criteria on
    the two columns the source filters on, then OFFSET and LIMIT. *)
Record Query : Type := mkQuery {
  where_uuid : option UUID;
  where_status : option TaskStatus;
  q_offset : option Z;
  q_limit : option Z
}.

(** [db.query(TaskModel)] *)
Definition query : Query :=
  {| where_uuid := None; where_status := None; q_offset := None; q_limit := None |}.

(** [.filter(TaskModel.uuid == u)] *)
Definition filter_uuid (u : UUID) (q : Query) : Query :=
  {| where_uuid := Some u; where_status := where_status q;
     q_offset := q_offset q; q_limit := q_limit q |}.

(** [.filter(TaskModel.status == s)] *)
Definition filter_status (s : TaskStatus) (q : Query) : Query :=
  {| where_uuid := where_uuid q; where_status := Some s;
     q_offset := q_offset q; q_limit := q_limit q |}.

(** [.offset(k)] *)
Definition offset (k : Z) (q : Query) : Query :=
  {| where_uuid := where_uuid q; where_status := where_status q;
     q_offset := Some k; q_limit := q_limit q |}.

(** [.limit(n)] *)
Definition limit (n : Z) (q : Query) : Query :=
  {| where_uuid := where_uuid q; where_status := where_status q;
     q_offset := q_offset q; q_limit := Some n |}.

(** A statement as it is handed to the database driver; an UPDATE carries
    the pending instance, whose attributes may be [None]. *)
Inductive Stmt : Type :=
| SELECT (q : Query)
| INSERT (r : TaskModel)
| UPDATE (o : TaskObject)
| DELETE (u : UUID).

(** The session as the endpoints see it: the rows of [tasks] in the order a
    table scan yields them (the order of insertion: the default engine is
    SQLite, whose scan follows the rowid), the statements handed to the
    driver so far, whether or not they were then accepted, and how often
    [uuid.uuid4] and [datetime.utcnow] have been called. *)
Record Session : Type := mkSession {
  tasks : list TaskModel;
  statements : list Stmt;
  uuid4_calls : nat;
  utcnow_calls : nat
}.

Definition empty_session : Session :=
  {| tasks := []; statements := []; uuid4_calls := 0; utcnow_calls := 0 |}.

Definition matches (q : Query) (r : TaskModel) : bool :=
  match where_uuid q with
  | Some u => N.eqb (uuid r) u
  | None => true
  end
  &&
  match where_status q with
  | Some s => TaskStatus_eqb (status r) s
  | None => true
  end.

(** OFFSET: a negative offset is read as zero. *)
Definition sql_offset (k : option Z) (rows : list TaskModel) : list TaskModel :=
  match k with
  | None => rows
  | Some z => skipn (Z.to_nat z) rows
  end.

(** LIMIT: a negative limit is no limit. *)
Definition sql_limit (n : option Z) (rows : list TaskModel) : list TaskModel :=
  match n with
  | None => rows
  | Some z => if z <? 0 then rows else firstn (Z.to_nat z) rows
  end.

(** An [int] the driver can bind as an SQLite INTEGER: a signed 64-bit
    value.  Binding any other [int] raises [OverflowError]. *)
Definition sqlite_integer (z : Z) : bool :=
  (- 2 ^ 63 <=? z) && (z <? 2 ^ 63).

(** The integer parameters of a query are its OFFSET and its LIMIT. *)
Definition bindable (q : Query) : bool :=
  match q_offset q with
  | Some z => sqlite_integer z
  | None => true
  end
  &&
  match q_limit q with
  | Some z => sqlite_integer z
  | None => true
  end.

Definition select (q : Query) (rows : list TaskModel) : list TaskModel :=
  sql_limit (q_limit q) (sql_offset (q_offset q) (filter (matches q) rows)).

Definition has_uuid (u : UUID) (r : TaskModel) : bool := N.eqb (uuid r) u.

(** The ways a request can end without a result. *)
Inductive Failure : Type :=
| RequestValidationError                      (* answered 422 *)
| HTTPException (status_code : Z) (detail : string)
| IntegrityError                              (* raised by [commit] *)
| InvalidRequestError                         (* raised by [refresh] *)
| OverflowError.                              (* raised when binding an [int] *)

Definition NotFoundError : Failure := HTTPException 404 "Task not found".

(** The outside world of one run: the decoder the framework applies to a
    [uuid.UUID] path parameter, and the values the i-th call of
    [uuid.uuid4] and of [datetime.utcnow] returns. *)
Record Runtime : Type := mkRuntime {
  uuid_of_path : string -> option UUID;
  uuid4 : nat -> UUID;
  utcnow : nat -> datetime
}.

(** Computations over a session that may fail. *)
Definition M (A : Type) : Type := Session -> (Failure + A) * Session.

Definition ret {A : Type} (a : A) : M A := fun s => (inr a, s).

Definition raise {A : Type} (e : Failure) : M A := fun s => (inl e, s).

Definition bind {A B : Type} (m : M A) (f : A -> M B) : M B :=
  fun s =>
    match m s with
    | (inl e, s') => (inl e, s')
    | (inr a, s') => f a s'
    end.

Notation "x <- m ;; k" := (bind m (fun x => k))
  (at level 61, m at next level, right associativity).
Notation "m ;;; k" := (bind m (fun _ => k))
  (at level 61, right associativity).

Definition with_statement (st : Stmt) (s : Session) : Session :=
  {| tasks := tasks s; statements := statements s ++ [st];
     uuid4_calls := uuid4_calls s; utcnow_calls := utcnow_calls s |}.

Definition with_tasks (rows : list TaskModel) (s : Session) : Session :=
  {| tasks := rows; statements := statements s;
     uuid4_calls := uuid4_calls s; utcnow_calls := utcnow_calls s |}.

Definition uuid4_called (s : Session) : Session :=
  {| tasks := tasks s; statements := statements s;
     uuid4_calls := S (uuid4_calls s); utcnow_calls := utcnow_calls s |}.

Definition utcnow_called (s : Session) : Session :=
  {| tasks := tasks s; statements := statements s;
     uuid4_calls := uuid4_calls s; utcnow_calls := S (utcnow_calls s) |}.

Definition execute (st : Stmt) : M unit :=
  fun s => (inr tt, with_statement st s).

Definition get_tasks_table : M (list TaskModel) := fun s => (inr (tasks s), s).

Definition put_tasks_table (rows : list TaskModel) : M unit :=
  fun s => (inr tt, with_tasks rows s).

(** [.all()]: the statement is handed to the driver, which binds its
    parameters before the database runs it. *)
Definition all (q : Query) : M (list TaskModel) :=
  execute (SELECT q) ;;;
  if bindable q then
    rows <- get_tasks_table ;;
    ret (select q rows)
  else raise OverflowError.

(** [.first()]: the query with LIMIT 1, and its only row if there is one. *)
Definition first (q : Query) : M (option TaskModel) :=
  rows <- all (limit 1 q) ;;
  ret (hd_error rows).

(** [db.refresh(obj)]: the row is read again by primary key. *)
Definition refresh (u : UUID) : M TaskModel :=
  r <- first (filter_uuid u query) ;;
  match r with
  | Some row => ret row
  | None => raise InvalidRequestError
  end.

(** [db.delete(obj); db.commit()] *)
Definition delete_commit (u : UUID) : M unit :=
  execute (DELETE u) ;;;
  rows <- get_tasks_table ;;
  put_tasks_table (filter (fun r => negb (has_uuid u r)) rows).

(** [db.commit()] with a modified instance pending: the UPDATE is sent,
    the database refuses it if a NOT NULL column would become NULL, and
    otherwise rewrites the row with this primary key in place. *)
Definition update_commit (o : TaskObject) : M unit :=
  execute (UPDATE o) ;;;
  match flush o with
  | None => raise IntegrityError
  | Some row =>
      rows <- get_tasks_table ;;
      put_tasks_table
        (map (fun r => if has_uuid (uuid row) r then row else r) rows)
  end.

Section Endpoints.

Variable rt : Runtime.

(** One call of [uuid.uuid4()]. *)
Definition call_uuid4 : M UUID :=
  fun s => (inr (uuid4 rt (uuid4_calls s)), uuid4_called s).

(** One call of [datetime.utcnow()]. *)
Definition call_utcnow : M datetime :=
  fun s => (inr (utcnow rt (utcnow_calls s)), utcnow_called s).

(** [db.add(TaskModel(name=..., description=...)); db.commit()].  The
    columns left out take their defaults, each default its own call:
    [uuid] from [uuid.uuid4], [status] the constant [CREATED], [created_at]
    from [datetime.utcnow] and [updated_at] from [datetime.utcnow] again.
    The INSERT is sent, and the database refuses it if a row with the same
    primary key [uuid] is already stored. *)
Definition add_commit (n : string) (d : option string) : M UUID :=
  u <- call_uuid4 ;;
  c <- call_utcnow ;;
  m <- call_utcnow ;;
  let row := {| uuid := u; name := n; description := d; status := CREATED;
                created_at := c; updated_at := m |} in
  rows <- get_tasks_table ;;
  execute (INSERT row) ;;;
  if existsb (has_uuid u) rows then raise IntegrityError
  else
    put_tasks_table (rows ++ [row]) ;;;
    ret u.

(** *** CRUD operations *)

Definition create_task (task : TaskCreate) : M TaskModel :=
  u <- add_commit (tc_name task) (tc_description task) ;;
  refresh u.

Definition get_task (task_uuid : UUID) : M TaskModel :=
  db_task <- first (filter_uuid task_uuid query) ;;
  match db_task with
  | None => raise NotFoundError
  | Some t => ret t
  end.

Definition get_tasks (skip lim : Z) (st : option TaskStatus) : M (list TaskModel) :=
  let q := query in
  let q := match st with
           | Some s => filter_status s q
           | None => q
           end in
  all (limit lim (offset skip q)).

Definition update_task (task_uuid : UUID) (task_update : TaskUpdate) : M TaskModel :=
  db_task <- first (filter_uuid task_uuid query) ;;
  match db_task with
  | None => raise NotFoundError
  | Some t =>
      let update_data := dict_exclude_unset task_update in
      let o := apply_update_data (load t) update_data in
      now <- call_utcnow ;;
      update_commit (set_updated_at o now) ;;;
      refresh (o_uuid o)
  end.

Definition delete_task (task_uuid : UUID) : M unit :=
  db_task <- first (filter_uuid task_uuid query) ;;
  match db_task with
  | None => raise NotFoundError
  | Some t => delete_commit (uuid t)
  end.

(** *** Routes

    What the decorators and the parameter annotations add around a body:
    every parameter is decoded and validated first, and one failure is
    enough for the request to end in [RequestValidationError] with the body
    never entered. *)

(** The query string of [GET /tasks/]. *)
Record list_params : Type := mkListParams {
  lp_skip : option Z;
  lp_limit : option Z;
  lp_status : option string
}.

Definition parse_status_param (s : option string) : option (option TaskStatus) :=
  match s with
  | None => Some None
  | Some v =>
      match TaskStatus_of_value v with
      | Some st => Some (Some st)
      | None => None
      end
  end.

Definition default {A : Type} (d : A) (o : option A) : A :=
  match o with
  | Some a => a
  | None => d
  end.

(** [@app.post("/tasks/")] *)
Definition POST_tasks (body : create_body) : M TaskModel :=
  match parse_TaskCreate body with
  | Some task => create_task task
  | None => raise RequestValidationError
  end.

(** [@app.get("/tasks/{task_uuid}")] *)
Definition GET_task (task_uuid : string) : M TaskModel :=
  match uuid_of_path rt task_uuid with
  | Some u => get_task u
  | None => raise RequestValidationError
  end.

(** [@app.get("/tasks/")], [skip: int = 0, limit: int = 100,
    status: Optional[TaskStatus] = None] *)
Definition GET_tasks (p : list_params) : M (list TaskModel) :=
  match parse_status_param (lp_status p) with
  | Some st => get_tasks (default 0 (lp_skip p)) (default 100 (lp_limit p)) st
  | None => raise RequestValidationError
  end.

(** [@app.put("/tasks/{task_uuid}")] *)
Definition PUT_task (task_uuid : string) (body : update_body) : M TaskModel :=
  match uuid_of_path rt task_uuid, parse_TaskUpdate body with
  | Some u, Some task_update => update_task u task_update
  | _, _ => raise RequestValidationError
  end.

(** [@app.delete("/tasks/{task_uuid}")] *)
Definition DELETE_task (task_uuid : string) : M unit :=
  match uuid_of_path rt task_uuid with
  | Some u => delete_task u
  | None => raise RequestValidationError
  end.

(** *** Runs of the service *)

Inductive Request : Type :=
| ReqCreate (body : create_body)
| ReqGet (task_uuid : string)
| ReqList (p : list_params)
| ReqUpdate (task_uuid : string) (body : update_body)
| ReqDelete (task_uuid : string).

(** The session a request leaves behind, whatever its answer. *)
Definition serve (r : Request) (s : Session) : Session :=
  match r with
  | ReqCreate b => snd (POST_tasks b s)
  | ReqGet u => snd (GET_task u s)
  | ReqList p => snd (GET_tasks p s)
  | ReqUpdate u b => snd (PUT_task u b s)
  | ReqDelete u => snd (DELETE_task u s)
  end.

Definition run (rs : list Request) (s : Session) : Session :=
  fold_left (fun acc r => serve r acc) rs s.

End Endpoints.

(** ** A concrete runtime

    Used wherever a statement is evaluated on explicit requests. *)

Definition hex_value (c : ascii) : option N :=
  let n := N_of_ascii c in
  if (N.leb 48 n && N.leb n 57)%bool then Some (n - 48)%N
  else if (N.leb 97 n && N.leb n 102)%bool then Some (n - 87)%N
  else if (N.leb 65 n && N.leb n 70)%bool then Some (n - 55)%N
  else None.

Definition hyphen_position (pos : nat) : bool :=
  (Nat.eqb pos 8 || Nat.eqb pos 13 || Nat.eqb pos 18 || Nat.eqb pos 23)%bool.

(** The text [str(uuid)] writes, which is what the [GUID] column stores and
    [uuid.UUID(value)] reads back: 32 hexadecimal digits in groups of
    8-4-4-4-12. *)
Fixpoint read_canonical (pos : nat) (s : string) (acc : N) : option N :=
  match s with
  | EmptyString => if Nat.eqb pos 36 then Some acc else None
  | String c rest =>
      if hyphen_position pos then
        if Ascii.eqb c "-"%char then read_canonical (S pos) rest acc else None
      else
        match hex_value c with
        | Some d => read_canonical (S pos) rest (16 * acc + d)%N
        | None => None
        end
  end.

Definition uuid_of_canonical (s : string) : option UUID := read_canonical 0 s 0%N.

(** Version-4, variant-1 identifiers counted upwards, and a clock that
    advances by one microsecond from one reading to the next. *)
Definition demo : Runtime :=
  {| uuid_of_path := uuid_of_canonical;
     uuid4 := fun i => (2 ^ 78 + 2 ^ 63 + N.of_nat i)%N;
     utcnow := fun i => 1700000000000000 + Z.of_nat i |}.

Definition uuid_0 : string := "00000000-0000-4000-8000-000000000000".
Definition uuid_1 : string := "00000000-0000-4000-8000-000000000001".


(** ** Notions used in the statements *)

(** The statement a lookup by primary key sends. *)
Definition lookup (u : UUID) : Stmt := SELECT (limit 1 (filter_uuid u query)).

(** What the [setattr] loop leaves in an attribute. *)
Definition patched {A : Type} (f : field A) (old : option A) : option A :=
  match f with
  | Unset => old
  | SetTo v => v
  end.

(** The instance [update_task] hands to [commit]. *)
Definition pending (t : TaskModel) (p : TaskUpdate) (now : datetime) : TaskObject :=
  {| o_uuid := uuid t;
     o_name := patched (tu_name p) (Some (name t));
     o_description := patched (tu_description p) (description t);
     o_status := patched (tu_status p) (Some (status t));
     o_created_at := created_at t;
     o_updated_at := now |}.

(** The row an insert writes: every default column its own call. *)
Definition inserted (rt : Runtime) (task : TaskCreate) (s : Session) : TaskModel :=
  {| uuid := uuid4 rt (uuid4_calls s);
     name := tc_name task;
     description := tc_description task;
     status := CREATED;
     created_at := utcnow rt (utcnow_calls s);
     updated_at := utcnow rt (S (utcnow_calls s)) |}.

(** A text outside its bounds, and a status outside the enumeration. *)
Definition violates_text (lo hi : nat) (j : option json) : Prop :=
  exists s, j = Some (JString s) /\ length_ok lo hi s = false.

Definition violates_status (j : option json) : Prop :=
  exists s, j = Some (JString s) /\ TaskStatus_of_value s = None.

(** The stored rows a status filter keeps, in table order. *)
Definition status_view (st : option TaskStatus) (rows : list TaskModel)
    : list TaskModel :=
  filter (fun r => match st with
                   | Some x => TaskStatus_eqb (status r) x
                   | None => true
                   end) rows.

(** The number of stored rows with a given status. *)
Definition count_status (st : TaskStatus) (rows : list TaskModel) : nat :=
  List.length (status_view (Some st) rows).

(** The query [get_tasks] builds. *)
Definition page_query (skip lim : Z) (st : option TaskStatus) : Query :=
  {| where_uuid := None; where_status := st;
     q_offset := Some skip; q_limit := Some lim |}.

(** The body and the query string a client sends for typed values. *)
Definition body_of (n : string) (d : option string) : create_body :=
  {| cb_name := Some (JString n); cb_description := option_map JString d |}.

Definition params_of (skip lim : option Z) (st : option TaskStatus) : list_params :=
  {| lp_skip := skip; lp_limit := lim; lp_status := option_map TaskStatus_value st |}.

(** A clock whose readings strictly increase from call to call. *)
Definition clock_strict (rt : Runtime) : Prop :=
  forall i j : nat, (i < j)%nat -> utcnow rt i < utcnow rt j.

(** The sessions the service can be in: those some sequence of requests
    leads to from the empty database. *)
Definition reachable (rt : Runtime) (s : Session) : Prop :=
  exists rs : list Request, s = run rt rs empty_session.

(** Every stored [updated_at] is a reading of the clock already taken. *)
Definition stamped (rt : Runtime) (s : Session) : Prop :=
  forall r, In r (tasks s) ->
    exists i : nat, (i < utcnow_calls s)%nat /\ updated_at r = utcnow rt i.

(** What one request can do to the table: nothing, append the row of an
    insert, rewrite the rows of one primary key, or remove them. *)
Inductive effect (rt : Runtime) (s s' : Session) : Prop :=
| effect_none :
    tasks s' = tasks s ->
    effect rt s s'
| effect_insert (task : TaskCreate) :
    find (has_uuid (uuid4 rt (uuid4_calls s))) (tasks s) = None ->
    tasks s' = (tasks s ++ [inserted rt task s])%list ->
    utcnow_calls s' = S (S (utcnow_calls s)) ->
    effect rt s s'
| effect_update (u : UUID) (row : TaskModel) :
    uuid row = u ->
    updated_at row = utcnow rt (utcnow_calls s) ->
    tasks s' = map (fun r => if has_uuid u r then row else r) (tasks s) ->
    utcnow_calls s' = S (utcnow_calls s) ->
    effect rt s s'
| effect_delete (u : UUID) :
    tasks s' = filter (fun r => negb (has_uuid u r)) (tasks s) ->
    effect rt s s'.

(** ** Concrete requests *)

Definition milk : create_body := body_of "Buy milk" None.

Definition empty_name_patch : update_body :=
  {| ub_name := Some (JString ""); ub_description := None; ub_status := None |}.

Definition null_name_patch : update_body :=
  {| ub_name := Some JNull; ub_description := None; ub_status := None |}.

Definition null_description_patch : update_body :=
  {| ub_name := None; ub_description := Some JNull; ub_status := None |}.

Definition rename_patch : update_body :=
  {| ub_name := Some (JString "Buy oat milk"); ub_description := None;
     ub_status := None |}.

Definition complete_patch : update_body :=
  {| ub_name := None; ub_description := None;
     ub_status := Some (JString "completed") |}.

(** The session after one task has been created. *)
Definition one_task : Session := snd (POST_tasks demo milk empty_session).

Definition negative_page : list_params :=
  {| lp_skip := Some (-1); lp_limit := Some (-5); lp_status := None |}.

(** The session after 101 tasks have been created, all of status created. *)
Definition many_tasks : Session :=
  run demo (repeat (ReqCreate milk) 101) empty_session.

(** The row of [one_task], and the row after it has been completed. *)
Definition milk_row : TaskModel :=
  {| uuid := uuid4 demo 0; name := "Buy milk"; description := None;
     status := CREATED;
     created_at := 1700000000000000; updated_at := 1700000000000001 |}.

Definition completed_row : TaskModel :=
  {| uuid := uuid4 demo 0; name := "Buy milk"; description := None;
     status := COMPLETED;
     created_at := 1700000000000000; updated_at := 1700000000000002 |}.

(** The session after the only task has been deleted. *)
Definition after_delete : Session := snd (DELETE_task demo uuid_0 one_task).

(** ** The [GUID] column type *)

Inductive Dialect : Type :=
| postgresql
| sqlite.

(** The implementation types [load_dialect_impl] chooses between. *)
Inductive ColumnType : Type :=
| PostgreSQL_UUID
| String_ (length : nat).

Definition load_dialect_impl (dialect : Dialect) : ColumnType :=
  match dialect with
  | postgresql => PostgreSQL_UUID
  | sqlite => String_ 36
  end.

(** What is handed to, and comes back from, the database driver: a native
    identifier or a text. *)
Inductive DriverValue : Type :=
| DUuid (u : UUID)
| DText (s : string).

Definition hex_char (d : N) : ascii :=
  if N.ltb d 10 then ascii_of_N (48 + d) else ascii_of_N (87 + d).

(** [n] lower-case hexadecimal digits of [v], most significant first,
    written in front of [rest]. *)
Fixpoint hex_digits (n : nat) (v : N) (rest : string) : string :=
  match n with
  | O => rest
  | S k => hex_digits k (v / 16) (String (hex_char (v mod 16)) rest)
  end.

(** [str(value)] of a [uuid.UUID]: the fields of 32, 16, 16, 16 and 48
    bits, as ['%08x-%04x-%04x-%04x-%012x']. *)
Definition str_of_uuid (u : UUID) : string :=
  hex_digits 8 (u / 16 ^ 24)
    (String "-" (hex_digits 4 ((u / 16 ^ 20) mod 16 ^ 4)
      (String "-" (hex_digits 4 ((u / 16 ^ 16) mod 16 ^ 4)
        (String "-" (hex_digits 4 ((u / 16 ^ 12) mod 16 ^ 4)
          (String "-" (hex_digits 12 (u mod 16 ^ 12) ""))))))))%N.

Definition process_bind_param (value : option UUID) (dialect : Dialect)
    : option DriverValue :=
  match value with
  | None => None
  | Some u =>
      match dialect with
      | postgresql => Some (DUuid u)
      | sqlite => Some (DText (str_of_uuid u))
      end
  end.

(** [process_result_value]: [inl tt] stands for the [ValueError] that
    [uuid.UUID(value)] raises on a text it cannot read; the texts read here
    are those in the layout [str] writes. *)
Definition process_result_value (value : option DriverValue) (dialect : Dialect)
    : unit + option UUID :=
  match value with
  | None => inr None
  | Some (DUuid u) => inr (Some u)
  | Some (DText s) =>
      match uuid_of_canonical s with
      | Some u => inr (Some u)
      | None => inl tt
      end
  end.

(** ** Notions for the invariants of a run *)

(** What one request does to the table, with the validated input it was
    done for. *)
Inductive change (rt : Runtime) (s s' : Session) : Prop :=
| change_none :
    tasks s' = tasks s ->
    change rt s s'
| change_insert (body : create_body) (task : TaskCreate) :
    parse_TaskCreate body = Some task ->
    find (has_uuid (uuid4 rt (uuid4_calls s))) (tasks s) = None ->
    tasks s' = (tasks s ++ [inserted rt task s])%list ->
    utcnow_calls s' = S (S (utcnow_calls s)) ->
    change rt s s'
| change_update (u : UUID) (t : TaskModel) (body : update_body) (p : TaskUpdate)
    (row : TaskModel) :
    find (has_uuid u) (tasks s) = Some t ->
    parse_TaskUpdate body = Some p ->
    flush (pending t p (utcnow rt (utcnow_calls s))) = Some row ->
    tasks s' = map (fun r => if has_uuid u r then row else r) (tasks s) ->
    utcnow_calls s' = S (utcnow_calls s) ->
    change rt s s'
| change_delete (u : UUID) :
    tasks s' = filter (fun r => negb (has_uuid u r)) (tasks s) ->
    change rt s s'.

(** The bounds [TaskBase] puts on name and description, read on a row. *)
Definition within_bounds (r : TaskModel) : Prop :=
  length_ok 1 255 (name r) = true
  /\ forall d, description r = Some d -> length_ok 0 1000 d = true.

(** Both timestamps of a row are clock readings already taken, the one of
    [created_at] not after the one of [updated_at]. *)
Definition timestamps_read (rt : Runtime) (s : Session) (r : TaskModel) : Prop :=
  exists i j : nat,
    (i <= j)%nat /\ (j < utcnow_calls s)%nat
    /\ created_at r = utcnow rt i /\ updated_at r = utcnow rt j.

(** A clock that never runs backwards. *)
Definition clock_monotone (rt : Runtime) : Prop :=
  forall i j : nat, (i <= j)%nat -> utcnow rt i <= utcnow rt j.

(** The body of a patch that sets the status only. *)
Definition status_patch (st : TaskStatus) : update_body :=
  {| ub_name := None; ub_description := None;
     ub_status := Some (JString (TaskStatus_value st)) |}.

Definition name_patch (n : string) : update_body :=
  {| ub_name := Some (JString n); ub_description := None; ub_status := None |}.

Definition empty_patch : update_body :=
  {| ub_name := None; ub_description := None; ub_status := None |}.

(** A create body that validation refuses: no name, a name that is not a
    text, a name of fewer than 1 or more than 255 characters, or a
    description that is neither [null] nor a text of at most 1000
    characters. *)
Definition invalid_create (b : create_body) : Prop :=
  cb_name b = None
  \/ (exists j, cb_name b = Some j /\ forall s, j <> JString s)
  \/ violates_text 1 255 (cb_name b)
  \/ violates_text 0 1000 (cb_description b)
  \/ (exists j, cb_description b = Some j /\ j <> JNull /\ forall s, j <> JString s).

(** A stored row with another [updated_at]. *)
Definition touched (t : TaskModel) (now : datetime) : TaskModel :=
  {| uuid := uuid t; name := name t; description := description t;
     status := status t; created_at := created_at t; updated_at := now |}.

(** The session an update that reaches [commit] leaves behind. *)
Definition after_update (rt : Runtime) (u : UUID) (row : TaskModel) (s : Session)
    : Session :=
  with_statement (lookup u)
    (with_tasks (map (fun r => if has_uuid u r then row else r) (tasks s))
       (with_statement (UPDATE (load row))
          (utcnow_called (with_statement (lookup u) s)))).

Definition null_status_patch : update_body :=
  {| ub_name := None; ub_description := None; ub_status := Some JNull |}.

Definition unknown_status_patch : update_body :=
  {| ub_name := None; ub_description := None;
     ub_status := Some (JString "invalid_status") |}.

(** A list call whose skip is the first integer past the signed 64-bit
    range. *)
Definition skip_past_int64 : list_params :=
  {| lp_skip := Some (2 ^ 63); lp_limit := Some 100; lp_status := None |}.
(** ** Facts about the session primitives *)

Local Open Scope list_scope.


Lemma has_uuid_true (u : UUID) (r : TaskModel) :
  has_uuid u r = true <-> uuid r = u.
Proof. unfold has_uuid. apply N.eqb_eq. Qed.

Lemma hd_error_firstn_filter (p : TaskModel -> bool) (rows : list TaskModel) :
  hd_error (firstn 1 (filter p rows)) = find p rows.
Proof.
  induction rows as [|r rows IH]; simpl; [reflexivity|].
  destruct (p r); simpl; [reflexivity | exact IH].
Qed.

Lemma select_by_uuid (u : UUID) (rows : list TaskModel) :
  select (limit 1 (filter_uuid u query)) rows = firstn 1 (filter (has_uuid u) rows).
Proof.
  unfold select, sql_limit, sql_offset; cbn [q_limit q_offset limit filter_uuid query].
  change (Z.to_nat 1) with 1%nat. change (1 <? 0) with false. cbv iota.
  f_equal. apply filter_ext.
  intros r. unfold matches, has_uuid; simpl. apply andb_true_r.
Qed.

Lemma bindable_lookup (u : UUID) : bindable (limit 1 (filter_uuid u query)) = true.
Proof. vm_compute. reflexivity. Qed.

Lemma first_by_uuid (u : UUID) (s : Session) :
  first (filter_uuid u query) s
  = (inr (find (has_uuid u) (tasks s)), with_statement (lookup u) s).
Proof.
  unfold first, all, bind, execute. rewrite bindable_lookup.
  unfold get_tasks_table, ret. cbn [tasks with_statement].
  rewrite select_by_uuid, hd_error_firstn_filter. reflexivity.
Qed.

Lemma find_has_uuid (u : UUID) (rows : list TaskModel) (t : TaskModel) :
  find (has_uuid u) rows = Some t -> In t rows /\ uuid t = u.
Proof.
  intros H. apply find_some in H. destruct H as [Hin Hu].
  split; [exact Hin | now apply has_uuid_true].
Qed.

Lemma find_none_existsb (u : UUID) (rows : list TaskModel) :
  find (has_uuid u) rows = None <-> existsb (has_uuid u) rows = false.
Proof.
  induction rows as [|r rows IH]; simpl; [tauto|].
  destruct (has_uuid u r); simpl; [split; discriminate | exact IH].
Qed.

(** Rewriting the rows with primary key [u] makes the new row the one a
    lookup of [u] finds. *)
Lemma find_rewritten (u : UUID) (row t : TaskModel) (rows : list TaskModel) :
  uuid row = u ->
  find (has_uuid u) rows = Some t ->
  find (has_uuid u) (map (fun r => if has_uuid u r then row else r) rows) = Some row.
Proof.
  intros Hrow. induction rows as [|r rows IH]; simpl; [discriminate|].
  destruct (has_uuid u r) eqn:E; simpl.
  - intros _. assert (has_uuid u row = true) as -> by now apply has_uuid_true.
    reflexivity.
  - rewrite E. exact IH.
Qed.

(** Rows with another primary key are not touched by the rewrite. *)
Lemma find_rewritten_other (u v : UUID) (row : TaskModel) (rows : list TaskModel) :
  uuid row = u -> v <> u ->
  find (has_uuid v) (map (fun r => if has_uuid u r then row else r) rows)
  = find (has_uuid v) rows.
Proof.
  intros Hrow Hne. induction rows as [|r rows IH]; simpl; [reflexivity|].
  destruct (has_uuid u r) eqn:E.
  - apply has_uuid_true in E.
    assert (has_uuid v row = false) as ->.
    { apply not_true_is_false. intros C. apply has_uuid_true in C. congruence. }
    assert (has_uuid v r = false) as ->.
    { apply not_true_is_false. intros C. apply has_uuid_true in C. congruence. }
    exact IH.
  - destruct (has_uuid v r); [reflexivity | exact IH].
Qed.

Lemma find_after_delete (u : UUID) (rows : list TaskModel) :
  find (has_uuid u) (filter (fun r => negb (has_uuid u r)) rows) = None.
Proof.
  induction rows as [|r rows IH]; simpl; [reflexivity|].
  destruct (has_uuid u r) eqn:E; simpl; [exact IH|].
  rewrite E. exact IH.
Qed.

Lemma flush_some (o : TaskObject) (row : TaskModel) :
  flush o = Some row ->
  uuid row = o_uuid o /\ o_name o = Some (name row)
  /\ description row = o_description o /\ o_status o = Some (status row)
  /\ created_at row = o_created_at o /\ updated_at row = o_updated_at o.
Proof.
  unfold flush. destruct (o_name o) as [n|]; [|discriminate].
  destruct (o_status o) as [st|]; [|discriminate].
  intros E; inversion E; subst; simpl. repeat split.
Qed.


Lemma flush_load (o : TaskObject) (row : TaskModel) :
  flush o = Some row -> o = load row.
Proof.
  destruct o as [u n d st c m]. unfold flush; cbn.
  destruct n as [n|]; [|discriminate]. destruct st as [st|]; [|discriminate].
  intros E; inversion E; subst. reflexivity.
Qed.

Lemma apply_update_data_spec (t : TaskModel) (u : TaskUpdate) :
  apply_update_data (load t) (dict_exclude_unset u)
  = {| o_uuid := uuid t;
       o_name := patched (tu_name u) (Some (name t));
       o_description := patched (tu_description u) (description t);
       o_status := patched (tu_status u) (Some (status t));
       o_created_at := created_at t;
       o_updated_at := updated_at t |}.
Proof.
  destruct u as [[|n] [|d] [|st]]; reflexivity.
Qed.

Lemma TaskStatus_eqb_eq (a b : TaskStatus) : TaskStatus_eqb a b = true <-> a = b.
Proof. destruct a, b; simpl; split; congruence. Qed.

Lemma TaskStatus_of_value_value (st : TaskStatus) :
  TaskStatus_of_value (TaskStatus_value st) = Some st.
Proof. destruct st; reflexivity. Qed.

(** ** Facts about the endpoint bodies *)

Section EndpointFacts.

Variable rt : Runtime.

Lemma get_task_found (u : UUID) (s : Session) (t : TaskModel) :
  find (has_uuid u) (tasks s) = Some t ->
  get_task u s = (inr t, with_statement (lookup u) s).
Proof.
  intros H. unfold get_task, bind. rewrite first_by_uuid, H. reflexivity.
Qed.

Lemma get_task_missing (u : UUID) (s : Session) :
  find (has_uuid u) (tasks s) = None ->
  get_task u s = (inl NotFoundError, with_statement (lookup u) s).
Proof.
  intros H. unfold get_task, bind. rewrite first_by_uuid, H. reflexivity.
Qed.

Lemma update_task_missing (u : UUID) (p : TaskUpdate) (s : Session) :
  find (has_uuid u) (tasks s) = None ->
  update_task rt u p s = (inl NotFoundError, with_statement (lookup u) s).
Proof.
  intros H. unfold update_task, bind. rewrite first_by_uuid, H. reflexivity.
Qed.

Lemma delete_task_missing (u : UUID) (s : Session) :
  find (has_uuid u) (tasks s) = None ->
  delete_task u s = (inl NotFoundError, with_statement (lookup u) s).
Proof.
  intros H. unfold delete_task, bind. rewrite first_by_uuid, H. reflexivity.
Qed.

Lemma delete_task_found (u : UUID) (s : Session) (t : TaskModel) :
  find (has_uuid u) (tasks s) = Some t ->
  delete_task u s
  = (inr tt,
     with_tasks (filter (fun r => negb (has_uuid u r)) (tasks s))
       (with_statement (DELETE u) (with_statement (lookup u) s))).
Proof.
  intros H. unfold delete_task, bind. rewrite first_by_uuid, H.
  destruct (find_has_uuid _ _ _ H) as [_ ->]. reflexivity.
Qed.


Lemma update_task_found (u : UUID) (p : TaskUpdate) (s : Session) (t : TaskModel) :
  find (has_uuid u) (tasks s) = Some t ->
  update_task rt u p s =
    let o := pending t p (utcnow rt (utcnow_calls s)) in
    let s1 := with_statement (UPDATE o)
                (utcnow_called (with_statement (lookup u) s)) in
    match flush o with
    | None => (inl IntegrityError, s1)
    | Some row =>
        (inr row,
         with_statement (lookup u)
           (with_tasks (map (fun r => if has_uuid u r then row else r) (tasks s))
              s1))
    end.
Proof.
  intros H. destruct (find_has_uuid _ _ _ H) as [_ Hu].
  unfold update_task, bind. rewrite first_by_uuid, H.
  rewrite apply_update_data_spec. cbn [o_uuid].
  unfold call_utcnow, set_updated_at, pending; cbn -[flush first].
  unfold update_commit, bind at 1, execute.
  destruct (flush _) as [row|] eqn:F; [|reflexivity].
  assert (uuid row = u) as Hrow.
  { destruct (flush_some _ _ F) as (Hid & _). rewrite Hid. exact Hu. }
  unfold bind, get_tasks_table, put_tasks_table, refresh, bind.
  rewrite first_by_uuid. cbn [tasks with_tasks with_statement utcnow_called].
  rewrite Hu, Hrow.
  rewrite (find_rewritten u row t (tasks s) Hrow H).
  reflexivity.
Qed.

End EndpointFacts.

(** ** Facts about request validation *)

Lemma parse_TaskUpdate_fields (b : update_body) (p : TaskUpdate) :
  parse_TaskUpdate b = Some p ->
  parse_field (validate_optional_str 1 255) (ub_name b) = Some (tu_name p)
  /\ parse_field (validate_optional_str 0 1000) (ub_description b) = Some (tu_description p)
  /\ parse_field validate_optional_status (ub_status b) = Some (tu_status p).
Proof.
  unfold parse_TaskUpdate.
  destruct (parse_field _ (ub_name b)) as [n|]; [|discriminate].
  destruct (parse_field _ (ub_description b)) as [d|]; [|discriminate].
  destruct (parse_field _ (ub_status b)) as [st|]; [|discriminate].
  intros E; inversion E; subst; simpl. repeat split.
Qed.

Lemma parse_field_unset {A : Type} (validate : json -> option (option A))
    (j : option json) :
  parse_field validate j = Some Unset <-> j = None.
Proof.
  split; [|intros ->; reflexivity].
  destruct j as [v|]; [|reflexivity]. simpl.
  destruct (validate v); discriminate.
Qed.

(** An optional text field that is set to [None] was sent as [null]. *)
Lemma parse_text_null (lo hi : nat) (j : option json) :
  parse_field (validate_optional_str lo hi) j = Some (SetTo None) <-> j = Some JNull.
Proof.
  split; [|intros ->; reflexivity].
  destruct j as [[|s|z|b]|]; simpl; try discriminate; [reflexivity|].
  destruct (length_ok lo hi s); discriminate.
Qed.

Lemma parse_status_null (j : option json) :
  parse_field validate_optional_status j = Some (SetTo None) <-> j = Some JNull.
Proof.
  split; [|intros ->; reflexivity].
  destruct j as [[|s|z|b]|]; simpl; try discriminate; [reflexivity|].
  destruct (TaskStatus_of_value s); discriminate.
Qed.



Lemma parse_TaskUpdate_rejects (b : update_body) :
  violates_text 1 255 (ub_name b)
  \/ violates_text 0 1000 (ub_description b)
  \/ violates_status (ub_status b) ->
  parse_TaskUpdate b = None.
Proof.
  unfold parse_TaskUpdate.
  intros [(s & -> & H) | [(s & -> & H) | (s & -> & H)]]; simpl; rewrite H.
  - reflexivity.
  - destruct (parse_field (validate_optional_str 1 255) (ub_name b)); reflexivity.
  - destruct (parse_field (validate_optional_str 1 255) (ub_name b)),
      (parse_field (validate_optional_str 0 1000) (ub_description b));
      reflexivity.
Qed.

Lemma no_row_find (u : UUID) (rows : list TaskModel) :
  (forall r, In r rows -> uuid r <> u) <-> find (has_uuid u) rows = None.
Proof.
  split.
  - intros H. destruct (find (has_uuid u) rows) as [t|] eqn:F; [|reflexivity].
    destruct (find_has_uuid _ _ _ F) as [Hin Hu]. now apply H in Hin.
  - intros F r Hin Hu. apply (find_none _ _ F) in Hin.
    apply has_uuid_true in Hu. congruence.
Qed.

(** ** Update of a task that does not exist *)


(** C1, as stated, fails: an update addressed to a well-formed identifier
    that no stored task carries, with a patch whose name is the empty
    string, ends in the validation failure and not in NotFoundError. *)
Lemma update_missing_invalid_patch_is_validation_error :
  uuid_of_path demo uuid_0 = Some (uuid4 demo 0)
  /\ (forall r, In r (tasks empty_session) -> uuid r <> uuid4 demo 0)
  /\ PUT_task demo uuid_0 empty_name_patch empty_session
     = (inl RequestValidationError, empty_session)
  /\ fst (PUT_task demo uuid_0 empty_name_patch empty_session) <> inl NotFoundError.
Proof.
  split; [vm_compute; reflexivity|]. split; [intros r []|].
  split; [vm_compute; reflexivity|]. vm_compute; discriminate.
Qed.

(** C1, amended: for an update request whose identifier is well formed and
    resolves to no stored task, the outcome is NotFoundError when the patch
    passes validation, and the validation failure, with the session not
    touched at all, when it does not; the table is unchanged either way. *)
Theorem update_missing_task (rt : Runtime) (task_uuid : string) (u : UUID)
    (body : update_body) (s : Session) :
  uuid_of_path rt task_uuid = Some u ->
  (forall r, In r (tasks s) -> uuid r <> u) ->
  match parse_TaskUpdate body with
  | Some _ => fst (PUT_task rt task_uuid body s) = inl NotFoundError
  | None => PUT_task rt task_uuid body s = (inl RequestValidationError, s)
  end
  /\ tasks (snd (PUT_task rt task_uuid body s)) = tasks s.
Proof.
  intros Hid Hno. apply no_row_find in Hno.
  unfold PUT_task. rewrite Hid.
  destruct (parse_TaskUpdate body) as [p|].
  - rewrite update_task_missing by exact Hno. split; reflexivity.
  - split; reflexivity.
Qed.


Lemma update_missing_task_witness :
  fst (PUT_task demo uuid_0 rename_patch empty_session) = inl NotFoundError
  /\ tasks (snd (PUT_task demo uuid_0 rename_patch empty_session)) = [].
Proof.
  apply (update_missing_task demo uuid_0 (uuid4 demo 0) rename_patch empty_session).
  - reflexivity.
  - intros r [].
Defined.

(** ** Creation *)

Lemma find_appended (u : UUID) (rows : list TaskModel) (row : TaskModel) :
  uuid row = u ->
  find (has_uuid u) rows = None ->
  find (has_uuid u) (rows ++ [row]) = Some row.
Proof.
  intros Hrow. induction rows as [|r rows IH]; simpl.
  - intros _. assert (has_uuid u row = true) as -> by now apply has_uuid_true.
    reflexivity.
  - destruct (has_uuid u r); [discriminate | exact IH].
Qed.

Section CreateFacts.

Variable rt : Runtime.

Lemma create_task_fresh (task : TaskCreate) (s : Session) :
  find (has_uuid (uuid4 rt (uuid4_calls s))) (tasks s) = None ->
  create_task rt task s
  = (inr (inserted rt task s),
     with_statement (lookup (uuid4 rt (uuid4_calls s)))
       (with_tasks (tasks s ++ [inserted rt task s])
          (with_statement (INSERT (inserted rt task s))
             (utcnow_called (utcnow_called (uuid4_called s)))))).
Proof.
  intros F. pose proof F as E. apply find_none_existsb in E.
  unfold create_task, add_commit, bind, call_uuid4, call_utcnow, get_tasks_table.
  cbn [tasks uuid4_called utcnow_called utcnow_calls uuid4_calls].
  rewrite E.
  unfold execute, put_tasks_table, ret, refresh, bind.
  rewrite first_by_uuid.
  cbn [tasks with_tasks with_statement].
  fold (inserted rt task s).
  rewrite (find_appended (uuid4 rt (uuid4_calls s)) (tasks s)
             (inserted rt task s) eq_refl F).
  reflexivity.
Qed.

Lemma create_task_collision (task : TaskCreate) (s : Session) (t : TaskModel) :
  find (has_uuid (uuid4 rt (uuid4_calls s))) (tasks s) = Some t ->
  create_task rt task s
  = (inl IntegrityError,
     with_statement (INSERT (inserted rt task s))
       (utcnow_called (utcnow_called (uuid4_called s)))).
Proof.
  intros F.
  assert (existsb (has_uuid (uuid4 rt (uuid4_calls s))) (tasks s) = true) as E.
  { destruct (existsb _ (tasks s)) eqn:X; [reflexivity|].
    apply find_none_existsb in X. congruence. }
  unfold create_task, add_commit, bind, call_uuid4, call_utcnow, get_tasks_table,
    execute.
  cbn [tasks uuid4_called utcnow_called utcnow_calls uuid4_calls].
  rewrite E. reflexivity.
Qed.

End CreateFacts.

Lemma parse_body_of (n : string) (d : option string) :
  length_ok 1 255 n = true ->
  (forall x, d = Some x -> length_ok 0 1000 x = true) ->
  parse_TaskCreate (body_of n d) = Some {| tc_name := n; tc_description := d |}.
Proof.
  intros Hn Hd. unfold parse_TaskCreate, body_of; simpl. rewrite Hn.
  destruct d as [x|]; simpl; [|reflexivity].
  rewrite (Hd x eq_refl). reflexivity.
Qed.

(** C3, as stated, fails: with a clock that advances between two readings,
    the task read back after its creation has a [created_at] that differs
    from its [updated_at]. *)
Lemma create_then_get_timestamps_differ :
  POST_tasks demo (body_of "Buy milk" None) empty_session = (inr milk_row, one_task)
  /\ uuid_of_path demo uuid_0 = Some (uuid milk_row)
  /\ fst (GET_task demo uuid_0 one_task) = inr milk_row
  /\ created_at milk_row <> updated_at milk_row.
Proof.
  split; [vm_compute; reflexivity|]. split; [vm_compute; reflexivity|].
  split; [vm_compute; reflexivity|]. discriminate.
Qed.

(** C3, amended: for every valid pair (name, description), creation with an
    identifier not yet in the table succeeds, and getting the created task
    by its id returns a record whose name and description equal the inputs,
    whose status is created, and whose [created_at] and [updated_at] are the
    two consecutive clock readings taken for the two column defaults; they
    are equal exactly when those two readings are. *)
Theorem create_then_get (rt : Runtime) (n : string) (d : option string)
    (s : Session) (task_uuid : string) :
  length_ok 1 255 n = true ->
  (forall x, d = Some x -> length_ok 0 1000 x = true) ->
  (forall r, In r (tasks s) -> uuid r <> uuid4 rt (uuid4_calls s)) ->
  uuid_of_path rt task_uuid = Some (uuid4 rt (uuid4_calls s)) ->
  exists t s1 s2,
    POST_tasks rt (body_of n d) s = (inr t, s1)
    /\ GET_task rt task_uuid s1 = (inr t, s2)
    /\ name t = n /\ description t = d /\ status t = CREATED
    /\ created_at t = utcnow rt (utcnow_calls s)
    /\ updated_at t = utcnow rt (S (utcnow_calls s))
    /\ (created_at t = updated_at t
        <-> utcnow rt (utcnow_calls s) = utcnow rt (S (utcnow_calls s))).
Proof.
  intros Hn Hd Hfresh Hid. apply no_row_find in Hfresh.
  unfold POST_tasks, GET_task.
  rewrite (parse_body_of _ _ Hn Hd), Hid, (create_task_fresh _ _ _ Hfresh).
  eexists _, _, _. split; [reflexivity|].
  split.
  - apply get_task_found. cbn [tasks with_tasks with_statement].
    now apply find_appended.
  - cbn. repeat split; auto.
Qed.

Lemma create_then_get_witness :
  exists t s1 s2,
    POST_tasks demo (body_of "Buy milk" (Some "2 litres")) empty_session = (inr t, s1)
    /\ GET_task demo uuid_0 s1 = (inr t, s2)
    /\ name t = "Buy milk" /\ description t = Some "2 litres" /\ status t = CREATED
    /\ created_at t = 1700000000000000
    /\ updated_at t = 1700000000000001
    /\ (created_at t = updated_at t <-> 1700000000000000 = 1700000000000001).
Proof.
  apply (create_then_get demo "Buy milk" (Some "2 litres") empty_session uuid_0).
  - reflexivity.
  - intros x E; inversion E; reflexivity.
  - intros r [].
  - reflexivity.
Defined.

(** ** Reading one task *)

(** C8: a get request whose identifier does not decode ends in the
    validation failure, which is not the not-found failure, and leaves the
    session as it was, so that no statement is sent to the database; with a
    well-formed identifier that no stored row carries the outcome is
    NotFoundError; otherwise the outcome is a row of the table carrying
    that identifier, as stored, and the table is unchanged. *)
Theorem get_task_outcomes (rt : Runtime) (task_uuid : string) (s : Session) :
  (uuid_of_path rt task_uuid = None ->
     GET_task rt task_uuid s = (inl RequestValidationError, s)
     /\ RequestValidationError <> NotFoundError)
  /\ (forall u, uuid_of_path rt task_uuid = Some u ->
        (forall r, In r (tasks s) -> uuid r <> u) ->
        fst (GET_task rt task_uuid s) = inl NotFoundError)
  /\ (forall u r, uuid_of_path rt task_uuid = Some u ->
        In r (tasks s) -> uuid r = u ->
        exists t, fst (GET_task rt task_uuid s) = inr t
                  /\ In t (tasks s) /\ uuid t = u
                  /\ find (has_uuid u) (tasks s) = Some t)
  /\ tasks (snd (GET_task rt task_uuid s)) = tasks s.
Proof.
  unfold GET_task. repeat split.
  - rewrite H. reflexivity.
  - discriminate.
  - intros u Hid Hno. rewrite Hid. apply no_row_find in Hno.
    rewrite get_task_missing by exact Hno. reflexivity.
  - intros u r Hid Hin Hr. rewrite Hid.
    destruct (find (has_uuid u) (tasks s)) as [t|] eqn:F.
    + rewrite (get_task_found _ _ _ F). destruct (find_has_uuid _ _ _ F) as [Ht Hu].
      exists t. repeat split; assumption.
    + exfalso. exact (proj2 (no_row_find u (tasks s)) F r Hin Hr).
  - destruct (uuid_of_path rt task_uuid) as [u|]; [|reflexivity].
    destruct (find (has_uuid u) (tasks s)) as [t|] eqn:F.
    + rewrite (get_task_found _ _ _ F). reflexivity.
    + rewrite (get_task_missing _ _ F). reflexivity.
Qed.

Lemma get_task_outcomes_witness :
  (GET_task demo "not-a-uuid" one_task = (inl RequestValidationError, one_task)
   /\ RequestValidationError <> NotFoundError)
  /\ fst (GET_task demo uuid_1 one_task) = inl NotFoundError
  /\ exists t, fst (GET_task demo uuid_0 one_task) = inr t
               /\ In t (tasks one_task) /\ uuid t = uuid4 demo 0
               /\ find (has_uuid (uuid4 demo 0)) (tasks one_task) = Some t.
Proof.
  split; [|split].
  - apply (proj1 (get_task_outcomes demo "not-a-uuid" one_task)). reflexivity.
  - apply (proj1 (proj2 (get_task_outcomes demo uuid_1 one_task)) (uuid4 demo 1)).
    + reflexivity.
    + intros r [<-|[]]. discriminate.
  - apply (proj1 (proj2 (proj2 (get_task_outcomes demo uuid_0 one_task)))
             (uuid4 demo 0) (inserted demo {| tc_name := "Buy milk"; tc_description := None |} empty_session)).
    + reflexivity.
    + left. reflexivity.
    + reflexivity.
Defined.

(** ** Updating a stored task *)

Lemma flush_pending (t : TaskModel) (p : TaskUpdate) (now : datetime) :
  tu_name p <> SetTo None -> tu_status p <> SetTo None ->
  exists row, flush (pending t p now) = Some row.
Proof.
  intros Hn Hs. unfold flush, pending; cbn.
  destruct (tu_name p) as [|[n|]]; cbn; try congruence;
    destruct (tu_status p) as [|[st|]]; cbn; try congruence; eauto.
Qed.

Lemma flush_pending_null_name (t : TaskModel) (p : TaskUpdate) (now : datetime) :
  tu_name p = SetTo None -> flush (pending t p now) = None.
Proof. intros H. unfold flush, pending; cbn. rewrite H. reflexivity. Qed.

Lemma flush_pending_null_status (t : TaskModel) (p : TaskUpdate) (now : datetime) :
  tu_status p = SetTo None -> flush (pending t p now) = None.
Proof.
  intros H. unfold flush, pending; cbn. rewrite H; cbn.
  destruct (patched (tu_name p) (Some (name t))); reflexivity.
Qed.

(** A body that fails validation never reaches [update_task]: the answer is
    the validation failure and the session is the one before the request. *)
Lemma update_invalid_body_rejected (rt : Runtime) (task_uuid : string)
    (body : update_body) (s : Session) :
  violates_text 1 255 (ub_name body)
  \/ violates_text 0 1000 (ub_description body)
  \/ violates_status (ub_status body) ->
  PUT_task rt task_uuid body s = (inl RequestValidationError, s).
Proof.
  intros H. unfold PUT_task. rewrite (parse_TaskUpdate_rejects _ H).
  destruct (uuid_of_path rt task_uuid); reflexivity.
Qed.

(** A [null] name passes validation, and the update of a stored task then
    fails in [commit]. *)
Lemma update_null_name (rt : Runtime) (task_uuid : string) (u : UUID)
    (body : update_body) (p : TaskUpdate) (s : Session) (t : TaskModel) :
  uuid_of_path rt task_uuid = Some u ->
  find (has_uuid u) (tasks s) = Some t ->
  parse_TaskUpdate body = Some p ->
  ub_name body = Some JNull ->
  PUT_task rt task_uuid body s
  = (inl IntegrityError,
     with_statement (UPDATE (pending t p (utcnow rt (utcnow_calls s))))
       (utcnow_called (with_statement (lookup u) s))).
Proof.
  intros Hid F Hp Hn. unfold PUT_task. rewrite Hid, Hp.
  rewrite (update_task_found rt _ _ _ _ F). cbv zeta.
  rewrite flush_pending_null_name; [reflexivity|].
  destruct (parse_TaskUpdate_fields _ _ Hp) as (E & _).
  rewrite Hn in E. cbn in E. congruence.
Qed.

(** C2 at its failing input: the stored task [uuid_0] is sent the patch
    [{"name": null}].  The patch is accepted by validation, the request ends
    in the integrity failure of [commit] and not in the validation failure,
    and the table is as before; the same [null] name sent to create is
    refused by validation. *)
Theorem update_null_name_not_a_validation_error :
  (exists p, parse_TaskUpdate null_name_patch = Some p)
  /\ fst (PUT_task demo uuid_0 null_name_patch one_task) = inl IntegrityError
  /\ fst (PUT_task demo uuid_0 null_name_patch one_task) <> inl RequestValidationError
  /\ tasks (snd (PUT_task demo uuid_0 null_name_patch one_task)) = tasks one_task
  /\ POST_tasks demo {| cb_name := Some JNull; cb_description := None |} one_task
     = (inl RequestValidationError, one_task).
Proof.
  split; [eexists; reflexivity|].
  split; [vm_compute; reflexivity|].
  split; [vm_compute; discriminate|].
  split; vm_compute; reflexivity.
Qed.

(** C10: for a stored task and a patch that passes validation and sets
    neither name nor status to [null], the update succeeds; if the patch
    carries [description: null] the returned and the stored description are
    [None], and if the patch has no description key the returned and the
    stored description are the ones before the update. *)
Theorem update_description_null_or_absent (rt : Runtime) (task_uuid : string)
    (u : UUID) (s : Session) (t : TaskModel) (body : update_body) (p : TaskUpdate) :
  uuid_of_path rt task_uuid = Some u ->
  find (has_uuid u) (tasks s) = Some t ->
  parse_TaskUpdate body = Some p ->
  ub_name body <> Some JNull ->
  ub_status body <> Some JNull ->
  exists t' s',
    PUT_task rt task_uuid body s = (inr t', s')
    /\ find (has_uuid u) (tasks s') = Some t'
    /\ (ub_description body = Some JNull -> description t' = None)
    /\ (ub_description body = None -> description t' = description t).
Proof.
  intros Hid F Hp Hn Hs.
  destruct (parse_TaskUpdate_fields _ _ Hp) as (En & Ed & Es).
  assert (tu_name p <> SetTo None) as Hn'.
  { intros C. rewrite C in En. now apply parse_text_null in En. }
  assert (tu_status p <> SetTo None) as Hs'.
  { intros C. rewrite C in Es. now apply parse_status_null in Es. }
  destruct (flush_pending t p (utcnow rt (utcnow_calls s)) Hn' Hs') as [row Hrow].
  unfold PUT_task. rewrite Hid, Hp, (update_task_found rt _ _ _ _ F).
  cbv zeta. rewrite Hrow.
  destruct (flush_some _ _ Hrow) as (Hu & _ & Hd & _).
  destruct (find_has_uuid _ _ _ F) as [_ Ht].
  eexists _, _. split; [reflexivity|].
  cbn [tasks with_tasks with_statement]. split.
  - apply (find_rewritten u row t); [|exact F]. rewrite Hu. exact Ht.
  - rewrite Hd; cbn [pending o_description]. split; intros E; rewrite E in Ed;
      cbn in Ed; inversion Ed; reflexivity.
Qed.

Lemma update_description_null_or_absent_witness :
  exists t' s',
    PUT_task demo uuid_0 null_description_patch one_task = (inr t', s')
    /\ find (has_uuid (uuid4 demo 0)) (tasks s') = Some t'
    /\ (ub_description null_description_patch = Some JNull -> description t' = None)
    /\ (ub_description null_description_patch = None
        -> description t' = description (inserted demo {| tc_name := "Buy milk"; tc_description := None |} empty_session)).
Proof.
  apply (update_description_null_or_absent demo uuid_0 (uuid4 demo 0) one_task
           (inserted demo {| tc_name := "Buy milk"; tc_description := None |} empty_session)
           null_description_patch
           {| tu_name := Unset; tu_description := SetTo None; tu_status := Unset |}).
  - reflexivity.
  - reflexivity.
  - reflexivity.
  - discriminate.
  - discriminate.
Defined.

(** ** Listing *)

Lemma select_page (skip lim : Z) (st : option TaskStatus) (rows : list TaskModel) :
  select (page_query skip lim st) rows
  = sql_limit (Some lim) (sql_offset (Some skip) (status_view st rows)).
Proof.
  unfold select, status_view; cbn [q_limit q_offset page_query].
  assert (filter (matches (page_query skip lim st)) rows
          = filter (fun r => match st with
                             | Some x => TaskStatus_eqb (status r) x
                             | None => true
                             end) rows) as ->; [|reflexivity].
  apply filter_ext. intros r. unfold matches; cbn.
  destruct st; reflexivity.
Qed.

Lemma get_tasks_outcome (skip lim : Z) (st : option TaskStatus) (s : Session) :
  get_tasks skip lim st s
  = if sqlite_integer skip && sqlite_integer lim
    then (inr (sql_limit (Some lim)
                 (sql_offset (Some skip) (status_view st (tasks s)))),
          with_statement (SELECT (page_query skip lim st)) s)
    else (inl OverflowError, with_statement (SELECT (page_query skip lim st)) s).
Proof.
  unfold get_tasks, all, bind, execute.
  assert (forall q, q_offset (limit lim (offset skip q)) = Some skip
                    /\ q_limit (limit lim (offset skip q)) = Some lim) as Hq
    by (intros q; split; reflexivity).
  destruct st as [x|]; unfold bindable;
    rewrite (proj1 (Hq _)), (proj2 (Hq _));
    destruct (sqlite_integer skip && sqlite_integer lim); try reflexivity;
    unfold get_tasks_table, ret; cbn [tasks with_statement];
    rewrite <- select_page; reflexivity.
Qed.

Lemma in_int64 (z : Z) : 0 <= z < 2 ^ 63 -> sqlite_integer z = true.
Proof.
  intros [H0 H1]. unfold sqlite_integer.
  pose proof (Z.pow_pos_nonneg 2 63 ltac:(lia) ltac:(lia)) as P.
  apply andb_true_intro. split; [apply Z.leb_le | apply Z.ltb_lt]; lia.
Qed.

Lemma get_tasks_spec (skip lim : Z) (st : option TaskStatus) (s : Session) :
  sqlite_integer skip = true ->
  sqlite_integer lim = true ->
  get_tasks skip lim st s
  = (inr (sql_limit (Some lim) (sql_offset (Some skip) (status_view st (tasks s)))),
     with_statement (SELECT (page_query skip lim st)) s).
Proof.
  intros Hs Hl. rewrite get_tasks_outcome, Hs, Hl. reflexivity.
Qed.

Lemma get_tasks_keeps_session (skip lim : Z) (st : option TaskStatus) (s : Session) :
  snd (get_tasks skip lim st s)
  = with_statement (SELECT (page_query skip lim st)) s.
Proof.
  rewrite get_tasks_outcome.
  destruct (sqlite_integer skip && sqlite_integer lim); reflexivity.
Qed.

Lemma parse_status_param_value (st : option TaskStatus) :
  parse_status_param (option_map TaskStatus_value st) = Some st.
Proof.
  destruct st as [x|]; simpl; [|reflexivity].
  rewrite TaskStatus_of_value_value. reflexivity.
Qed.

Lemma GET_tasks_spec (skip lim : option Z) (st : option TaskStatus)
    (s : Session) :
  GET_tasks (params_of skip lim st) s
  = get_tasks (default 0 skip) (default 100 lim) st s.
Proof.
  unfold GET_tasks, params_of; cbn [lp_status lp_skip lp_limit].
  rewrite parse_status_param_value. reflexivity.
Qed.

Lemma status_view_status (st : TaskStatus) (rows : list TaskModel) :
  Forall (fun r => status r = st) (status_view (Some st) rows).
Proof.
  apply Forall_forall. intros r Hin. unfold status_view in Hin.
  apply filter_In in Hin. destruct Hin as [_ H]. now apply TaskStatus_eqb_eq.
Qed.

Lemma in_firstn_in (n : nat) (rows : list TaskModel) (r : TaskModel) :
  In r (firstn n rows) -> In r rows.
Proof.
  intros H. rewrite <- (firstn_skipn n rows). apply in_or_app. now left.
Qed.

Lemma in_skipn_in (n : nat) (rows : list TaskModel) (r : TaskModel) :
  In r (skipn n rows) -> In r rows.
Proof.
  intros H. rewrite <- (firstn_skipn n rows). apply in_or_app. now right.
Qed.

Lemma Forall_page {P : TaskModel -> Prop} (skip lim : option Z) (rows : list TaskModel) :
  Forall P rows -> Forall P (sql_limit lim (sql_offset skip rows)).
Proof.
  intros H. rewrite Forall_forall in *. intros r Hin. apply H.
  assert (In r (sql_offset skip rows)) as Hin'.
  { destruct lim as [z|]; cbn in Hin; [|exact Hin].
    destruct (z <? 0); [exact Hin|]. eapply in_firstn_in; eauto. }
  destruct skip as [z|]; cbn in Hin'; [|exact Hin'].
  eapply in_skipn_in; eauto.
Qed.

Lemma page_nonneg (skip lim : Z) (rows : list TaskModel) :
  0 <= skip -> 0 <= lim ->
  sql_limit (Some lim) (sql_offset (Some skip) rows)
  = firstn (Z.to_nat lim) (skipn (Z.to_nat skip) rows).
Proof.
  intros _ Hl. unfold sql_limit, sql_offset.
  destruct (Z.ltb_spec lim 0); [lia | reflexivity].
Qed.

(** C4, as stated, fails: a list call with skip -1 and limit -5 is not
    refused, and the statement sent to the database carries offset -1 and
    limit -5. *)
Lemma list_negative_skip_and_limit_are_sent :
  GET_tasks negative_page one_task
  = (inr (tasks one_task),
     with_statement
       (SELECT {| where_uuid := None; where_status := None;
                  q_offset := Some (-1); q_limit := Some (-5) |})
       one_task).
Proof. reflexivity. Qed.

(** C4, amended: skip and limit are integers defaulting to 0 and 100, with
    no sign constraint: every list call whose status parameter is valid and
    whose skip and limit the driver can bind (signed 64-bit values,
    negative ones included) is executed against the store with exactly the
    skip and the limit it carries: the one statement sent has them as its
    OFFSET and its LIMIT, and the answer is the page that statement
    selects. *)
Theorem list_offset_and_limit_as_given (skip lim : option Z)
    (st : option TaskStatus) (s : Session) :
  sqlite_integer (default 0 skip) = true ->
  sqlite_integer (default 100 lim) = true ->
  exists q,
    GET_tasks (params_of skip lim st) s
    = (inr (select q (tasks s)), with_statement (SELECT q) s)
    /\ q_offset q = Some (default 0 skip)
    /\ q_limit q = Some (default 100 lim)
    /\ where_status q = st.
Proof.
  intros Hs Hl.
  exists (page_query (default 0 skip) (default 100 lim) st).
  rewrite GET_tasks_spec, (get_tasks_spec _ _ st s Hs Hl), select_page.
  repeat split.
Qed.

Lemma list_offset_and_limit_as_given_witness :
  exists q,
    GET_tasks (params_of (Some (-1)) (Some (-5)) None) one_task
    = (inr (select q (tasks one_task)), with_statement (SELECT q) one_task)
    /\ q_offset q = Some (default 0 (Some (-1)))
    /\ q_limit q = Some (default 100 (Some (-5)))
    /\ where_status q = None.
Proof.
  apply (list_offset_and_limit_as_given (Some (-1)) (Some (-5)) None one_task).
  - vm_compute. reflexivity.
  - vm_compute. reflexivity.
Defined.

Lemma POST_tasks_appends (rt : Runtime) (body : create_body) (s s1 : Session)
    (t : TaskModel) :
  POST_tasks rt body s = (inr t, s1) -> tasks s1 = tasks s ++ [t].
Proof.
  unfold POST_tasks. destruct (parse_TaskCreate body) as [task|]; [|discriminate].
  destruct (find (has_uuid (uuid4 rt (uuid4_calls s))) (tasks s)) as [x|] eqn:F.
  - rewrite (create_task_collision rt task s x F). discriminate.
  - rewrite (create_task_fresh rt task s F). intros E; inversion E; reflexivity.
Qed.

(** C5, as stated, fails: with 101 stored tasks of status created, the list
    filtered by created with the default skip and limit returns 100
    records. *)
Lemma list_by_status_stops_at_limit :
  count_status CREATED (tasks many_tasks) = 101%nat
  /\ exists rows,
       fst (GET_tasks (params_of None None (Some CREATED)) many_tasks) = inr rows
       /\ List.length rows = 100%nat.
Proof.
  split; [vm_compute; reflexivity|].
  exists (firstn 100 (tasks many_tasks)).
  split; vm_compute; reflexivity.
Qed.

(** C5, amended: for every status S, every store state and every skip and
    limit from 0 to 2^63 - 1 (0 and 100 when not given), every record
    returned by the list filtered by S has status S, and the number of
    records returned is the number of stored records of status S that
    remain after skipping [skip] of them, capped at [limit]; it equals the
    number of stored records of status S when skip is 0 and that number
    does not exceed the limit. *)
Theorem list_by_status (st : TaskStatus) (skip lim : option Z) (s : Session) :
  0 <= default 0 skip < 2 ^ 63 ->
  0 <= default 100 lim < 2 ^ 63 ->
  exists rows,
    fst (GET_tasks (params_of skip lim (Some st)) s) = inr rows
    /\ Forall (fun r => status r = st) rows
    /\ List.length rows
       = Nat.min (Z.to_nat (default 100 lim))
           (count_status st (tasks s) - Z.to_nat (default 0 skip))
    /\ (default 0 skip = 0 ->
        (count_status st (tasks s) <= Z.to_nat (default 100%Z lim))%nat ->
        List.length rows = count_status st (tasks s)).
Proof.
  intros Hk Hn.
  rewrite GET_tasks_spec,
    (get_tasks_spec _ _ (Some st) s (in_int64 _ Hk) (in_int64 _ Hn)).
  cbn [fst].
  eexists. split; [reflexivity|]. split.
  - apply Forall_page, status_view_status.
  - rewrite page_nonneg by lia.
    rewrite length_firstn, length_skipn. fold (count_status st (tasks s)).
    split; [reflexivity|]. intros -> Hle. change (Z.to_nat 0) with 0%nat. lia.
Qed.

Lemma list_by_status_witness :
  exists rows,
    fst (GET_tasks (params_of None None (Some CREATED)) one_task) = inr rows
    /\ Forall (fun r => status r = CREATED) rows
    /\ List.length rows = Nat.min (Z.to_nat 100) (count_status CREATED (tasks one_task) - Z.to_nat 0)
    /\ (0 = 0 -> (count_status CREATED (tasks one_task) <= Z.to_nat 100%Z)%nat ->
        List.length rows = count_status CREATED (tasks one_task)).
Proof.
  apply (list_by_status CREATED None None one_task);
    unfold default; split; try lia; vm_compute; reflexivity.
Defined.

(** C6, as stated, fails: with skip 2^63, a non-negative value, the list
    call is not answered with an empty sequence but ends in an error, the
    overflow raised when the skip is bound. *)
Lemma list_skip_past_int64_is_an_error :
  0 <= 2 ^ 63
  /\ fst (GET_tasks skip_past_int64 one_task) = inl OverflowError
  /\ fst (GET_tasks skip_past_int64 one_task) <> inr [].
Proof.
  split; [vm_compute; discriminate|].
  split; [vm_compute; reflexivity | vm_compute; discriminate].
Qed.

(** C6, amended: for every store state, every optional status filter and
    all k and n from 0 to 2^63 - 1, the list with skip k and limit n
    succeeds and returns exactly the records at positions k through k+n-1
    of the filtered rows taken in table order; the call leaves the table as
    it was, so that the same call repeated returns the same records; when k
    is at least the size of the filtered set the result is the empty
    sequence; and the order is that of insertion: a task created afterwards
    comes after all the rows already listed. *)
Theorem list_page (rt : Runtime) (s : Session) (k n : Z) (st : option TaskStatus) :
  0 <= k < 2 ^ 63 ->
  0 <= n < 2 ^ 63 ->
  exists rows s',
    GET_tasks (params_of (Some k) (Some n) st) s = (inr rows, s')
    /\ rows = firstn (Z.to_nat n) (skipn (Z.to_nat k) (status_view st (tasks s)))
    /\ (forall i : nat,
          nth_error rows i
          = if (i <? Z.to_nat n)%nat
            then nth_error (status_view st (tasks s)) (Z.to_nat k + i)
            else None)
    /\ tasks s' = tasks s
    /\ fst (GET_tasks (params_of (Some k) (Some n) st) s') = inr rows
    /\ ((List.length (status_view st (tasks s)) <= Z.to_nat k)%nat -> rows = [])
    /\ (forall body t s1,
          POST_tasks rt body s = (inr t, s1) ->
          status_view st (tasks s1)
          = status_view st (tasks s) ++ status_view st [t]).
Proof.
  intros Hk Hn.
  exists (firstn (Z.to_nat n) (skipn (Z.to_nat k) (status_view st (tasks s)))),
         (with_statement (SELECT (page_query k n st)) s).
  rewrite !GET_tasks_spec. cbn [default].
  rewrite !(get_tasks_spec k n st _ (in_int64 _ Hk) (in_int64 _ Hn)).
  cbn [fst tasks with_statement].
  rewrite page_nonneg by lia.
  split; [reflexivity|]. split; [reflexivity|].
  split; [|split; [reflexivity|split; [reflexivity|split]]].
  - intros i. rewrite nth_error_firstn, nth_error_skipn. reflexivity.
  - intros Hlen. rewrite skipn_all2 by exact Hlen. apply firstn_nil.
  - intros body t s1 H. rewrite (POST_tasks_appends _ _ _ _ _ H).
    unfold status_view. apply filter_app.
Qed.

Lemma list_page_witness :
  exists rows s',
    GET_tasks (params_of (Some 2) (Some 2) None) many_tasks = (inr rows, s')
    /\ rows = firstn (Z.to_nat 2) (skipn (Z.to_nat 2) (status_view None (tasks many_tasks)))
    /\ (forall i : nat,
          nth_error rows i
          = if (i <? Z.to_nat 2%Z)%nat
            then nth_error (status_view None (tasks many_tasks)) (Z.to_nat 2 + i)
            else None)
    /\ tasks s' = tasks many_tasks
    /\ fst (GET_tasks (params_of (Some 2) (Some 2) None) s') = inr rows
    /\ ((List.length (status_view None (tasks many_tasks)) <= Z.to_nat 2%Z)%nat -> rows = [])
    /\ (forall body t s1,
          POST_tasks demo body many_tasks = (inr t, s1) ->
          status_view None (tasks s1)
          = status_view None (tasks many_tasks) ++ status_view None [t]).
Proof.
  apply (list_page demo many_tasks 2 2 None);
    split; try lia; vm_compute; reflexivity.
Defined.

(** ** Runs of the service *)

Lemma serve_effect (rt : Runtime) (r : Request) (s : Session) :
  effect rt s (serve rt r s)
  /\ (utcnow_calls s <= utcnow_calls (serve rt r s))%nat
  /\ (uuid4_calls s <= uuid4_calls (serve rt r s))%nat.
Proof.
  destruct r as [body | raw | p | raw body | raw]; cbn [serve].
  - unfold POST_tasks. destruct (parse_TaskCreate body) as [task|].
    + destruct (find (has_uuid (uuid4 rt (uuid4_calls s))) (tasks s)) as [x|] eqn:F.
      * rewrite (create_task_collision rt task s x F); cbn.
        split; [now apply effect_none | lia].
      * rewrite (create_task_fresh rt task s F); cbn.
        split; [now apply (effect_insert rt s _ task) | lia].
    + cbn. split; [now apply effect_none | lia].
  - unfold GET_task. destruct (uuid_of_path rt raw) as [u|].
    + destruct (find (has_uuid u) (tasks s)) as [t|] eqn:F.
      * rewrite (get_task_found u s t F); cbn. split; [now apply effect_none | lia].
      * rewrite (get_task_missing u s F); cbn. split; [now apply effect_none | lia].
    + cbn. split; [now apply effect_none | lia].
  - unfold GET_tasks. destruct (parse_status_param (lp_status p)) as [st|].
    + rewrite get_tasks_keeps_session; cbn. split; [now apply effect_none | lia].
    + cbn. split; [now apply effect_none | lia].
  - unfold PUT_task. destruct (uuid_of_path rt raw) as [u|];
      [destruct (parse_TaskUpdate body) as [p|]|].
    + destruct (find (has_uuid u) (tasks s)) as [t|] eqn:F.
      * rewrite (update_task_found rt u p s t F). cbv zeta.
        destruct (flush (pending t p (utcnow rt (utcnow_calls s)))) as [row|] eqn:E.
        -- destruct (flush_some _ _ E) as (Hu & _ & _ & _ & _ & Hup).
           destruct (find_has_uuid _ _ _ F) as [_ Ht]. cbn.
           split; [|lia]. apply (effect_update rt s _ u row); cbn; auto.
           rewrite Hu. exact Ht.
        -- cbn. split; [now apply effect_none | lia].
      * rewrite (update_task_missing rt u p s F); cbn.
        split; [now apply effect_none | lia].
    + cbn. split; [now apply effect_none | lia].
    + cbn. split; [now apply effect_none | lia].
  - unfold DELETE_task. destruct (uuid_of_path rt raw) as [u|].
    + destruct (find (has_uuid u) (tasks s)) as [t|] eqn:F.
      * rewrite (delete_task_found u s t F); cbn.
        split; [now apply (effect_delete rt s _ u) | lia].
      * rewrite (delete_task_missing u s F); cbn.
        split; [now apply effect_none | lia].
    + cbn. split; [now apply effect_none | lia].
Qed.

Lemma run_app (rt : Runtime) (rs rs' : list Request) (s : Session) :
  run rt (rs ++ rs') s = run rt rs' (run rt rs s).
Proof. unfold run. apply fold_left_app. Qed.

(** Every request keeps the stored [updated_at] values among the clock
    readings already taken. *)
Lemma serve_stamped (rt : Runtime) (r : Request) (s : Session) :
  stamped rt s -> stamped rt (serve rt r s).
Proof.
  intros Inv. destruct (serve_effect rt r s) as (Eff & Hclock & _).
  unfold stamped in *. intros x Hin.
  destruct Eff as [E | task _ E C | u row _ Hup E C | u E]; rewrite E in Hin.
  - destruct (Inv x Hin) as (i & Hi & Hx). exists i. split; [lia | exact Hx].
  - apply in_app_or in Hin. destruct Hin as [Hin | [<- | []]].
    + destruct (Inv x Hin) as (i & Hi & Hx). exists i. split; [lia | exact Hx].
    + exists (S (utcnow_calls s)). split; [lia | reflexivity].
  - apply in_map_iff in Hin. destruct Hin as (y & Hy & Hin).
    destruct (has_uuid u y).
    + subst x. exists (utcnow_calls s). split; [lia | exact Hup].
    + subst x. destruct (Inv y Hin) as (i & Hi & Hx). exists i. split; [lia | exact Hx].
  - apply filter_In in Hin. destruct Hin as [Hin _].
    destruct (Inv x Hin) as (i & Hi & Hx). exists i. split; [lia | exact Hx].
Qed.

Lemma run_stamped (rt : Runtime) (rs : list Request) (s : Session) :
  stamped rt s -> stamped rt (run rt rs s).
Proof.
  revert s. induction rs as [|r rs IH]; intros s Inv; [exact Inv|].
  cbn. apply IH, serve_stamped, Inv.
Qed.

Lemma reachable_stamped (rt : Runtime) (s : Session) :
  reachable rt s -> stamped rt s.
Proof.
  intros [rs ->]. apply run_stamped. intros r [].
Qed.

(** C7: in every session the service can reach, with a clock whose
    readings strictly increase, a successful update of a stored task leaves
    each of name, description and status that the patch does not carry at
    its prior value, leaves the identifier and [created_at] at their prior
    values, sets [updated_at] to the clock reading of the update, which is
    strictly later than the prior [updated_at], stores the returned record
    under the identifier, and leaves every other stored task as it was. *)
Theorem update_preserves_absent_fields (rt : Runtime) (s s' : Session)
    (task_uuid : string) (u : UUID) (t t' : TaskModel) (body : update_body) :
  clock_strict rt ->
  reachable rt s ->
  uuid_of_path rt task_uuid = Some u ->
  find (has_uuid u) (tasks s) = Some t ->
  PUT_task rt task_uuid body s = (inr t', s') ->
  (ub_name body = None -> name t' = name t)
  /\ (ub_description body = None -> description t' = description t)
  /\ (ub_status body = None -> status t' = status t)
  /\ uuid t' = uuid t
  /\ created_at t' = created_at t
  /\ updated_at t' = utcnow rt (utcnow_calls s)
  /\ updated_at t < updated_at t'
  /\ find (has_uuid u) (tasks s') = Some t'
  /\ (forall v, v <> u -> find (has_uuid v) (tasks s') = find (has_uuid v) (tasks s)).
Proof.
  intros Hclock Hreach Hid F Hput.
  unfold PUT_task in Hput. rewrite Hid in Hput.
  destruct (parse_TaskUpdate body) as [p|] eqn:Hp; [|discriminate].
  rewrite (update_task_found rt u p s t F) in Hput. cbv zeta in Hput.
  destruct (flush (pending t p (utcnow rt (utcnow_calls s)))) as [row|] eqn:E;
    [|discriminate].
  inversion Hput; subst t' s'; clear Hput.
  destruct (flush_some _ _ E) as (Hu & Hn & Hd & Hs & Hc & Hup).
  cbn [pending o_uuid o_name o_description o_status o_created_at o_updated_at]
    in Hu, Hn, Hd, Hs, Hc, Hup.
  destruct (parse_TaskUpdate_fields _ _ Hp) as (En & Ed & Es).
  destruct (find_has_uuid _ _ _ F) as [Hin Ht].
  assert (uuid row = u) as Hrow by (rewrite Hu; exact Ht).
  repeat split.
  - intros A. rewrite A in En. cbn in En. inversion En as [B].
    rewrite <- B in Hn. cbn in Hn. congruence.
  - intros A. rewrite A in Ed. cbn in Ed. inversion Ed as [B].
    rewrite <- B in Hd. exact Hd.
  - intros A. rewrite A in Es. cbn in Es. inversion Es as [B].
    rewrite <- B in Hs. cbn in Hs. congruence.
  - exact Hu.
  - exact Hc.
  - exact Hup.
  - rewrite Hup.
    destruct (reachable_stamped rt s Hreach t Hin) as (i & Hi & ->).
    apply Hclock. exact Hi.
  - cbn [tasks with_tasks with_statement].
    exact (find_rewritten u row t (tasks s) Hrow F).
  - intros v Hv. cbn [tasks with_tasks with_statement].
    exact (find_rewritten_other u v row (tasks s) Hrow Hv).
Qed.

Lemma update_preserves_absent_fields_witness :
  (ub_name complete_patch = None -> name completed_row = name milk_row)
  /\ (ub_description complete_patch = None
      -> description completed_row = description milk_row)
  /\ (ub_status complete_patch = None -> status completed_row = status milk_row)
  /\ uuid completed_row = uuid milk_row
  /\ created_at completed_row = created_at milk_row
  /\ updated_at completed_row = utcnow demo (utcnow_calls one_task)
  /\ updated_at milk_row < updated_at completed_row
  /\ find (has_uuid (uuid4 demo 0))
        (tasks (snd (PUT_task demo uuid_0 complete_patch one_task)))
      = Some completed_row
  /\ (forall v, v <> uuid4 demo 0 ->
        find (has_uuid v) (tasks (snd (PUT_task demo uuid_0 complete_patch one_task)))
        = find (has_uuid v) (tasks one_task)).
Proof.
  apply (update_preserves_absent_fields demo one_task
           (snd (PUT_task demo uuid_0 complete_patch one_task))
           uuid_0 (uuid4 demo 0) milk_row completed_row complete_patch).
  - intros i j H. unfold demo, utcnow. lia.
  - exists [ReqCreate milk]. vm_compute. reflexivity.
  - vm_compute. reflexivity.
  - vm_compute. reflexivity.
  - vm_compute. reflexivity.
Defined.

(** ** Deletion *)

Lemma serve_keeps_absent (rt : Runtime) (r : Request) (s : Session) (u : UUID) :
  uuid4 rt (uuid4_calls s) <> u ->
  find (has_uuid u) (tasks s) = None ->
  find (has_uuid u) (tasks (serve rt r s)) = None.
Proof.
  intros Hgen Habs. destruct (serve_effect rt r s) as (Eff & _ & _).
  apply no_row_find. intros x Hin Hx.
  pose proof (proj2 (no_row_find u (tasks s)) Habs) as Hno.
  destruct Eff as [E | task _ E _ | v row Hrow _ E _ | v E]; rewrite E in Hin.
  - exact (Hno x Hin Hx).
  - apply in_app_or in Hin. destruct Hin as [Hin | [<- | []]].
    + exact (Hno x Hin Hx).
    + apply Hgen. exact Hx.
  - apply in_map_iff in Hin. destruct Hin as (y & Hy & Hin).
    destruct (has_uuid v y) eqn:B.
    + apply has_uuid_true in B. apply (Hno y Hin). congruence.
    + subst x. exact (Hno y Hin Hx).
  - apply filter_In in Hin. destruct Hin as [Hin _]. exact (Hno x Hin Hx).
Qed.

Lemma run_keeps_absent (rt : Runtime) (rs : list Request) (s : Session) (u : UUID) :
  (forall i : nat, (uuid4_calls s <= i)%nat -> uuid4 rt i <> u) ->
  find (has_uuid u) (tasks s) = None ->
  find (has_uuid u) (tasks (run rt rs s)) = None.
Proof.
  revert s. induction rs as [|r rs IH]; intros s Hgen Habs; [exact Habs|].
  cbn. apply IH.
  - intros i Hi. apply Hgen.
    destruct (serve_effect rt r s) as (_ & _ & Hcalls). lia.
  - apply serve_keeps_absent; [apply Hgen; lia | exact Habs].
Qed.

Lemma DELETE_task_success (rt : Runtime) (task_uuid : string) (u : UUID)
    (s s1 : Session) :
  uuid_of_path rt task_uuid = Some u ->
  DELETE_task rt task_uuid s = (inr tt, s1) ->
  (exists t, find (has_uuid u) (tasks s) = Some t)
  /\ tasks s1 = filter (fun r => negb (has_uuid u r)) (tasks s)
  /\ uuid4_calls s1 = uuid4_calls s.
Proof.
  intros Hid H. unfold DELETE_task in H. rewrite Hid in H.
  destruct (find (has_uuid u) (tasks s)) as [t|] eqn:F.
  - rewrite (delete_task_found u s t F) in H. inversion H; subst s1.
    split; [eauto | split; reflexivity].
  - rewrite (delete_task_missing u s F) in H. discriminate.
Qed.

(** C9, as stated, fails: after the task [uuid_0] has been deleted, an
    update addressed to it whose patch has an empty name ends in the
    validation failure and not in NotFoundError. *)
Lemma update_after_delete_invalid_patch_is_validation_error :
  DELETE_task demo uuid_0 one_task = (inr tt, after_delete)
  /\ fst (PUT_task demo uuid_0 empty_name_patch after_delete)
     = inl RequestValidationError
  /\ fst (PUT_task demo uuid_0 empty_name_patch after_delete) <> inl NotFoundError.
Proof.
  split; [vm_compute; reflexivity|]. split; [vm_compute; reflexivity|].
  vm_compute; discriminate.
Qed.

(** C9, amended: after a delete of a task succeeds, and after any further
    requests served since, as long as the identifier generator does not
    yield the deleted identifier again, a get, an update with any patch
    that passes validation, and a second delete addressed to that
    identifier all end in NotFoundError, and no stored row carries the
    identifier. *)
Theorem deleted_task_is_not_found (rt : Runtime) (task_uuid : string) (u : UUID)
    (s s1 : Session) (rs : list Request) :
  uuid_of_path rt task_uuid = Some u ->
  DELETE_task rt task_uuid s = (inr tt, s1) ->
  (forall i : nat, (uuid4_calls s1 <= i)%nat -> uuid4 rt i <> u) ->
  fst (GET_task rt task_uuid (run rt rs s1)) = inl NotFoundError
  /\ (forall body p, parse_TaskUpdate body = Some p ->
        fst (PUT_task rt task_uuid body (run rt rs s1)) = inl NotFoundError)
  /\ fst (DELETE_task rt task_uuid (run rt rs s1)) = inl NotFoundError
  /\ (forall r, In r (tasks (run rt rs s1)) -> uuid r <> u).
Proof.
  intros Hid Hdel Hgen.
  destruct (DELETE_task_success rt task_uuid u s s1 Hid Hdel) as (_ & Ht & _).
  assert (find (has_uuid u) (tasks (run rt rs s1)) = None) as Habs.
  { apply run_keeps_absent; [exact Hgen|]. rewrite Ht. apply find_after_delete. }
  unfold GET_task, PUT_task, DELETE_task. rewrite Hid.
  rewrite (get_task_missing u _ Habs), (delete_task_missing u _ Habs).
  repeat split.
  - intros body p Hp. rewrite Hp, (update_task_missing rt u p _ Habs). reflexivity.
  - apply no_row_find. exact Habs.
Qed.

Lemma deleted_task_is_not_found_witness :
  fst (GET_task demo uuid_0 (run demo [ReqCreate milk] after_delete))
  = inl NotFoundError
  /\ (forall body p, parse_TaskUpdate body = Some p ->
        fst (PUT_task demo uuid_0 body (run demo [ReqCreate milk] after_delete))
        = inl NotFoundError)
  /\ fst (DELETE_task demo uuid_0 (run demo [ReqCreate milk] after_delete))
     = inl NotFoundError
  /\ (forall r, In r (tasks (run demo [ReqCreate milk] after_delete))
        -> uuid r <> uuid4 demo 0).
Proof.
  apply (deleted_task_is_not_found demo uuid_0 (uuid4 demo 0) one_task after_delete
           [ReqCreate milk]).
  - vm_compute. reflexivity.
  - vm_compute. reflexivity.
  - intros i Hi E.
    assert (uuid4_calls after_delete = 1%nat) as C by (vm_compute; reflexivity).
    rewrite C in Hi. unfold demo, uuid4 in E.
    apply N.add_cancel_l in E. lia.
Defined.

(** ** The [GUID] column type *)

Lemma hex_value_hex_char (d : N) :
  (d < 16)%N -> hex_value (hex_char d) = Some d.
Proof.
  intros H. destruct d as [|p]; [reflexivity|].
  do 4 (destruct p as [p|p|]; try reflexivity); lia.
Qed.

Lemma read_hex_block (n : nat) :
  forall (pos : nat) (v : N) (rest : string) (acc : N),
    (v < 16 ^ N.of_nat n)%N ->
    (forall i : nat, (i < n)%nat -> hyphen_position (pos + i) = false) ->
    read_canonical pos (hex_digits n v rest) acc
    = read_canonical (pos + n) rest (acc * 16 ^ N.of_nat n + v)%N.
Proof.
  induction n as [|k IH]; intros pos v rest acc Hv Hpos.
  - cbn [hex_digits]. rewrite Nat.add_0_r. f_equal.
    change (16 ^ N.of_nat 0)%N with 1%N in *. lia.
  - cbn [hex_digits].
    rewrite Nat2N.inj_succ, N.pow_succ_r' in Hv.
    rewrite IH.
    + cbn [read_canonical]. rewrite (Hpos k) by lia.
      rewrite hex_value_hex_char by (apply N.mod_lt; lia).
      rewrite Nat.add_succ_r. f_equal.
      rewrite Nat2N.inj_succ, N.pow_succ_r'.
      pose proof (N.div_mod v 16). lia.
    + apply N.Div0.div_lt_upper_bound; lia.
    + intros i Hi. apply Hpos. lia.
Qed.

Lemma hex_digits_length (n : nat) :
  forall (v : N) (rest : string),
    String.length (hex_digits n v rest) = (n + String.length rest)%nat.
Proof.
  induction n as [|k IH]; intros v rest; cbn [hex_digits]; [reflexivity|].
  rewrite IH. cbn [String.length]. lia.
Qed.

Lemma no_hyphen_in (pos n : nat) :
  forallb (fun i => negb (hyphen_position (pos + i))) (seq 0 n) = true ->
  forall i : nat, (i < n)%nat -> hyphen_position (pos + i) = false.
Proof.
  intros H i Hi. rewrite forallb_forall in H.
  apply negb_true_iff, H, in_seq. lia.
Qed.

Lemma str_of_uuid_length (u : UUID) : String.length (str_of_uuid u) = 36%nat.
Proof.
  unfold str_of_uuid.
  repeat (rewrite hex_digits_length; cbn [String.length]). reflexivity.
Qed.

Lemma assemble_fields (A B C u q0 q1 q2 q3 r0 r1 r2 r3 : N) :
  (u = C * q0 + r0)%N ->
  (q0 = B * q1 + r1)%N ->
  (q1 = B * q2 + r2)%N ->
  (q2 = B * q3 + r3)%N ->
  (((((0 * A + q3) * B + r3) * B + r2) * B + r1) * C + r0)%N = u.
Proof. intros -> -> -> ->. ring. Qed.

Lemma pow16_nonzero (k : N) : (16 ^ k <> 0)%N.
Proof. apply N.pow_nonzero. discriminate. Qed.

Lemma read_group (n pos : nat) (v : N) (rest : string) (acc : N) :
  (v < 16 ^ N.of_nat n)%N ->
  forallb (fun i => negb (hyphen_position (pos + i))) (seq 0 n) = true ->
  hyphen_position (pos + n) = true ->
  read_canonical pos (hex_digits n v (String "-" rest)) acc
  = read_canonical (S (pos + n)) rest (acc * 16 ^ N.of_nat n + v)%N.
Proof.
  intros Hv Hno Hyes.
  rewrite read_hex_block by (first [exact Hv | apply no_hyphen_in; exact Hno]).
  cbn [read_canonical]. rewrite Hyes. reflexivity.
Qed.

Lemma read_end (pos : nat) (acc : N) :
  pos = 36%nat -> read_canonical pos "" acc = Some acc.
Proof. intros ->. reflexivity. Qed.

Lemma field_lt (q : N) (k : nat) : (q mod 16 ^ N.of_nat k < 16 ^ N.of_nat k)%N.
Proof. apply N.mod_lt, pow16_nonzero. Qed.

Lemma uuid_of_canonical_str (u : UUID) :
  (u < 2 ^ 128)%N -> uuid_of_canonical (str_of_uuid u) = Some u.
Proof.
  intros Hu. unfold uuid_of_canonical, str_of_uuid.
  assert (u / 16 ^ 24 < 16 ^ N.of_nat 8)%N as Ha.
  { apply N.Div0.div_lt_upper_bound.
    replace (16 ^ 24 * 16 ^ N.of_nat 8)%N with (2 ^ 128)%N by (vm_compute; reflexivity).
    exact Hu. }
  assert (u / 16 ^ 24 = u / 16 ^ 12 / 16 ^ 4 / 16 ^ 4 / 16 ^ 4)%N as D24.
  { rewrite !N.Div0.div_div. apply (f_equal (N.div u)). vm_compute. reflexivity. }
  assert (u / 16 ^ 20 = u / 16 ^ 12 / 16 ^ 4 / 16 ^ 4)%N as D20.
  { rewrite !N.Div0.div_div. apply (f_equal (N.div u)). vm_compute. reflexivity. }
  assert (u / 16 ^ 16 = u / 16 ^ 12 / 16 ^ 4)%N as D16.
  { rewrite !N.Div0.div_div. apply (f_equal (N.div u)). vm_compute. reflexivity. }
  rewrite (read_group 8 0 _ _ _ Ha eq_refl eq_refl).
  change (S (0 + 8)) with 9%nat.
  rewrite (read_group 4 9 _ _ _ (field_lt _ 4) eq_refl eq_refl).
  change (S (9 + 4)) with 14%nat.
  rewrite (read_group 4 14 _ _ _ (field_lt _ 4) eq_refl eq_refl).
  change (S (14 + 4)) with 19%nat.
  rewrite (read_group 4 19 _ _ _ (field_lt _ 4) eq_refl eq_refl).
  change (S (19 + 4)) with 24%nat.
  rewrite (read_hex_block 12 24 _ _ _ (field_lt _ 12) (no_hyphen_in 24 12 eq_refl)).
  rewrite read_end by reflexivity.
  clear Ha Hu. rewrite D24, D20, D16. clear D24 D20 D16.
  pose proof (N.div_mod u (16 ^ N.of_nat 12) (pow16_nonzero _)) as E0.
  pose proof (N.div_mod (u / 16 ^ 12) (16 ^ N.of_nat 4) (pow16_nonzero _)) as E1.
  pose proof (N.div_mod (u / 16 ^ 12 / 16 ^ 4) (16 ^ N.of_nat 4) (pow16_nonzero _)) as E2.
  pose proof (N.div_mod (u / 16 ^ 12 / 16 ^ 4 / 16 ^ 4) (16 ^ N.of_nat 4) (pow16_nonzero _)) as E3.
  pose proof (assemble_fields (16 ^ N.of_nat 8) _ _ _ _ _ _ _ _ _ _ _ E0 E1 E2 E3) as A.
  exact (f_equal Some A).
Qed.

(** A [uuid.UUID] bound to a statement and read back from a result comes
    back unchanged under either dialect, and [None] stays [None]. *)
Theorem GUID_round_trip (u : UUID) (dialect : Dialect) :
  (u < 2 ^ 128)%N ->
  process_result_value (process_bind_param (Some u) dialect) dialect = inr (Some u)
  /\ process_result_value (process_bind_param None dialect) dialect = inr None.
Proof.
  intros Hu. split; [|reflexivity].
  destruct dialect; cbn [process_bind_param process_result_value]; [reflexivity|].
  rewrite (uuid_of_canonical_str u Hu). reflexivity.
Qed.

Lemma GUID_round_trip_witness :
  process_result_value (process_bind_param (Some (uuid4 demo 7)) sqlite) sqlite
  = inr (Some (uuid4 demo 7))
  /\ process_result_value (process_bind_param None sqlite) sqlite = inr None.
Proof.
  apply (GUID_round_trip (uuid4 demo 7) sqlite). vm_compute. reflexivity.
Defined.

(** Outside PostgreSQL an identifier is bound as a text of exactly the 36
    characters the column is declared with. *)
Theorem GUID_text_fits_column (u : UUID) :
  exists s,
    process_bind_param (Some u) sqlite = Some (DText s)
    /\ load_dialect_impl sqlite = String_ (String.length s).
Proof.
  exists (str_of_uuid u). split; [reflexivity|].
  rewrite str_of_uuid_length. reflexivity.
Qed.

(** ** Invariants of a run *)

Lemma serve_change (rt : Runtime) (r : Request) (s : Session) :
  change rt s (serve rt r s)
  /\ (utcnow_calls s <= utcnow_calls (serve rt r s))%nat.
Proof.
  destruct r as [body | raw | p | raw body | raw]; cbn [serve].
  - unfold POST_tasks. destruct (parse_TaskCreate body) as [task|] eqn:P.
    + destruct (find (has_uuid (uuid4 rt (uuid4_calls s))) (tasks s)) as [x|] eqn:F.
      * rewrite (create_task_collision rt task s x F); cbn.
        split; [now apply change_none | lia].
      * rewrite (create_task_fresh rt task s F); cbn.
        split; [now apply (change_insert rt s _ body task) | lia].
    + cbn. split; [now apply change_none | lia].
  - unfold GET_task. destruct (uuid_of_path rt raw) as [u|].
    + destruct (find (has_uuid u) (tasks s)) as [t|] eqn:F.
      * rewrite (get_task_found u s t F); cbn. split; [now apply change_none | lia].
      * rewrite (get_task_missing u s F); cbn. split; [now apply change_none | lia].
    + cbn. split; [now apply change_none | lia].
  - unfold GET_tasks. destruct (parse_status_param (lp_status p)) as [st|].
    + rewrite get_tasks_keeps_session; cbn. split; [now apply change_none | lia].
    + cbn. split; [now apply change_none | lia].
  - unfold PUT_task. destruct (uuid_of_path rt raw) as [u|];
      [destruct (parse_TaskUpdate body) as [p|] eqn:P|].
    + destruct (find (has_uuid u) (tasks s)) as [t|] eqn:F.
      * rewrite (update_task_found rt u p s t F). cbv zeta.
        destruct (flush (pending t p (utcnow rt (utcnow_calls s)))) as [row|] eqn:E.
        -- cbn. split; [|lia].
           now apply (change_update rt s _ u t body p row).
        -- cbn. split; [now apply change_none | lia].
      * rewrite (update_task_missing rt u p s F); cbn.
        split; [now apply change_none | lia].
    + cbn. split; [now apply change_none | lia].
    + cbn. split; [now apply change_none | lia].
  - unfold DELETE_task. destruct (uuid_of_path rt raw) as [u|].
    + destruct (find (has_uuid u) (tasks s)) as [t|] eqn:F.
      * rewrite (delete_task_found u s t F); cbn.
        split; [now apply (change_delete rt s _ u) | lia].
      * rewrite (delete_task_missing u s F); cbn.
        split; [now apply change_none | lia].
    + cbn. split; [now apply change_none | lia].
Qed.

(** An invariant of the table that every kind of change keeps holds in
    every reachable session. *)
Lemma reachable_ind (rt : Runtime) (P : Session -> Prop) :
  P empty_session ->
  (forall r s, P s -> P (serve rt r s)) ->
  forall s, reachable rt s -> P s.
Proof.
  intros H0 Hstep s [rs ->].
  assert (forall l s0, P s0 -> P (run rt l s0)) as G.
  { induction l as [|r l IH]; intros s0 H; [exact H|]. cbn. apply IH, Hstep, H. }
  apply G, H0.
Qed.

Lemma NoDup_snoc {A : Type} (l : list A) (x : A) :
  NoDup l -> ~ In x l -> NoDup (l ++ [x]).
Proof.
  induction l as [|a l IH]; intros Hl Hx; cbn.
  - constructor; [intros [] | constructor].
  - inversion Hl as [|? ? Ha Hl']; subst. constructor.
    + intros C. apply in_app_or in C. destruct C as [C | [C | []]].
      * exact (Ha C).
      * apply Hx. left. symmetry. exact C.
    + apply IH; [exact Hl' | intros C; apply Hx; right; exact C].
Qed.

Lemma NoDup_map_filter (p : TaskModel -> bool) (rows : list TaskModel) :
  NoDup (map uuid rows) -> NoDup (map uuid (filter p rows)).
Proof.
  induction rows as [|r rows IH]; cbn; intros H; [constructor|].
  inversion H as [|? ? Hr H']; subst.
  destruct (p r); cbn; [|exact (IH H')].
  constructor; [|exact (IH H')].
  intros C. apply Hr. apply in_map_iff in C. destruct C as (y & Hy & Hin).
  apply in_map_iff. exists y. split; [exact Hy|].
  apply filter_In in Hin. tauto.
Qed.

Lemma map_uuid_rewritten (u : UUID) (row : TaskModel) (rows : list TaskModel) :
  uuid row = u ->
  map uuid (map (fun r => if has_uuid u r then row else r) rows) = map uuid rows.
Proof.
  intros Hrow. induction rows as [|r rows IH]; cbn; [reflexivity|].
  rewrite IH. f_equal. destruct (has_uuid u r) eqn:E; [|reflexivity].
  apply has_uuid_true in E. congruence.
Qed.

Lemma flushed_uuid (u : UUID) (rows : list TaskModel) (t row : TaskModel)
    (p : TaskUpdate) (now : datetime) :
  find (has_uuid u) rows = Some t ->
  flush (pending t p now) = Some row ->
  uuid row = u.
Proof.
  intros F E. destruct (flush_some _ _ E) as (Hu & _).
  destruct (find_has_uuid _ _ _ F) as [_ Ht]. rewrite Hu. exact Ht.
Qed.

Lemma reachable_NoDup_uuid (rt : Runtime) (s : Session) :
  reachable rt s -> NoDup (map uuid (tasks s)).
Proof.
  apply (reachable_ind rt (fun s => NoDup (map uuid (tasks s)))); [constructor|].
  clear s. intros r s Inv. destruct (serve_change rt r s) as (Ch & _).
  destruct Ch as [E | body task _ F E _ | u t body p row F _ Fl E _ | u E];
    rewrite E.
  - exact Inv.
  - rewrite map_app. cbn [map inserted uuid]. apply NoDup_snoc; [exact Inv|].
    intros C. apply in_map_iff in C. destruct C as (y & Hy & Hin).
    exact (proj2 (no_row_find _ _) F y Hin Hy).
  - rewrite (map_uuid_rewritten u row (tasks s) (flushed_uuid _ _ _ _ _ _ F Fl)).
    exact Inv.
  - apply NoDup_map_filter. exact Inv.
Qed.

Lemma find_unique (rows : list TaskModel) (r : TaskModel) :
  NoDup (map uuid rows) -> In r rows ->
  find (has_uuid (uuid r)) rows = Some r.
Proof.
  induction rows as [|x rows IH]; cbn; intros Hnd Hin; [destruct Hin|].
  inversion Hnd as [|? ? Hx Hnd']; subst.
  destruct Hin as [-> | Hin].
  - assert (has_uuid (uuid r) r = true) as -> by now apply has_uuid_true.
    reflexivity.
  - destruct (has_uuid (uuid r) x) eqn:E; [|exact (IH Hnd' Hin)].
    apply has_uuid_true in E. exfalso. apply Hx.
    apply in_map_iff. exists r. split; [symmetry; exact E | exact Hin].
Qed.

(** In every session the service can reach, no two stored tasks carry the
    same identifier, and every stored task is the one a lookup of its
    identifier finds. *)
Theorem reachable_unique_uuid (rt : Runtime) (s : Session) (r : TaskModel) :
  reachable rt s -> In r (tasks s) ->
  NoDup (map uuid (tasks s))
  /\ find (has_uuid (uuid r)) (tasks s) = Some r
  /\ (forall r', In r' (tasks s) -> uuid r' = uuid r -> r' = r).
Proof.
  intros Hreach Hin.
  pose proof (reachable_NoDup_uuid rt s Hreach) as Hnd.
  split; [exact Hnd|]. split; [exact (find_unique (tasks s) r Hnd Hin)|].
  intros r' Hin' E.
  pose proof (find_unique (tasks s) r' Hnd Hin') as F'.
  rewrite E, (find_unique (tasks s) r Hnd Hin) in F'. congruence.
Qed.

Lemma reachable_unique_uuid_witness :
  NoDup (map uuid (tasks one_task))
  /\ find (has_uuid (uuid milk_row)) (tasks one_task) = Some milk_row
  /\ (forall r', In r' (tasks one_task) -> uuid r' = uuid milk_row -> r' = milk_row).
Proof.
  apply (reachable_unique_uuid demo one_task milk_row).
  - exists [ReqCreate milk]. vm_compute. reflexivity.
  - left. vm_compute. reflexivity.
Defined.

Lemma parse_TaskCreate_bounds (b : create_body) (task : TaskCreate) :
  parse_TaskCreate b = Some task ->
  length_ok 1 255 (tc_name task) = true
  /\ forall d, tc_description task = Some d -> length_ok 0 1000 d = true.
Proof.
  unfold parse_TaskCreate.
  destruct (cb_name b) as [[|n|z|x]|]; cbn [validate_str]; try discriminate.
  destruct (length_ok 1 255 n) eqn:Hn; [|discriminate].
  destruct (cb_description b) as [[|d|z|x]|]; cbn [validate_optional_str];
    try discriminate.
  - intros E; inversion E; subst; cbn. split; [exact Hn | discriminate].
  - destruct (length_ok 0 1000 d) eqn:Hd; [|discriminate].
    intros E; inversion E; subst; cbn. split; [exact Hn|].
    intros d' E'; inversion E'; subst. exact Hd.
  - intros E; inversion E; subst; cbn. split; [exact Hn | discriminate].
Qed.

Lemma parse_text_bounds (lo hi : nat) (j : option json) (v : string) :
  parse_field (validate_optional_str lo hi) j = Some (SetTo (Some v)) ->
  length_ok lo hi v = true.
Proof.
  destruct j as [[|s|z|b]|]; cbn [parse_field validate_optional_str];
    try discriminate.
  destruct (length_ok lo hi s) eqn:H; [|discriminate].
  intros E; inversion E; subst. exact H.
Qed.

Lemma flushed_within_bounds (t row : TaskModel) (body : update_body)
    (p : TaskUpdate) (now : datetime) :
  parse_TaskUpdate body = Some p ->
  flush (pending t p now) = Some row ->
  within_bounds t -> within_bounds row.
Proof.
  intros P E [Hn Hd].
  destruct (parse_TaskUpdate_fields _ _ P) as (En & Ed & _).
  destruct (flush_some _ _ E) as (_ & Hname & Hdesc & _).
  cbn [pending o_name o_description] in Hname, Hdesc.
  split.
  - destruct (tu_name p) as [|[n|]]; cbn in Hname; inversion Hname; subst.
    + exact Hn.
    + apply (parse_text_bounds _ _ _ _ En).
  - rewrite Hdesc. destruct (tu_description p) as [|[d|]]; cbn.
    + exact Hd.
    + intros d' E'; inversion E'; subst. apply (parse_text_bounds _ _ _ _ Ed).
    + discriminate.
Qed.

(** In every session the service can reach, every stored task has a name
    of 1 to 255 characters and a description, if any, of at most 1000
    characters: what is stored always satisfies the response schema. *)
Theorem reachable_within_bounds (rt : Runtime) (s : Session) (r : TaskModel) :
  reachable rt s -> In r (tasks s) -> within_bounds r.
Proof.
  intros Hreach. revert r.
  apply (reachable_ind rt (fun s => forall r, In r (tasks s) -> within_bounds r));
    [intros r [] | | exact Hreach].
  clear s Hreach. intros q s Inv r. destruct (serve_change rt q s) as (Ch & _).
  destruct Ch as [E | body task P _ E _ | u t body p row F P Fl E _ | u E];
    rewrite E; intros Hin.
  - exact (Inv r Hin).
  - apply in_app_or in Hin. destruct Hin as [Hin | [<- | []]]; [exact (Inv r Hin)|].
    exact (parse_TaskCreate_bounds _ _ P).
  - apply in_map_iff in Hin. destruct Hin as (y & Hy & Hin).
    destruct (has_uuid u y); subst r; [|exact (Inv y Hin)].
    apply (flushed_within_bounds t row body p _ P Fl).
    apply Inv. exact (proj1 (find_has_uuid _ _ _ F)).
  - apply filter_In in Hin. exact (Inv r (proj1 Hin)).
Qed.

Lemma reachable_within_bounds_witness : within_bounds milk_row.
Proof.
  apply (reachable_within_bounds demo one_task milk_row).
  - exists [ReqCreate milk]. vm_compute. reflexivity.
  - left. vm_compute. reflexivity.
Defined.

Lemma reachable_timestamps_read (rt : Runtime) (s : Session) (r : TaskModel) :
  reachable rt s -> In r (tasks s) -> timestamps_read rt s r.
Proof.
  intros Hreach. revert r.
  apply (reachable_ind rt (fun s => forall r, In r (tasks s) -> timestamps_read rt s r));
    [intros r [] | | exact Hreach].
  clear s Hreach. intros q s Inv r.
  destruct (serve_change rt q s) as (Ch & Hcalls).
  assert (forall x, timestamps_read rt s x -> timestamps_read rt (serve rt q s) x)
    as Keep.
  { intros x (i & j & Hij & Hj & Hc & Hu). exists i, j. repeat split; auto; lia. }
  destruct Ch as [E | body task _ _ E C | u t body p row F _ Fl E C | u E];
    rewrite E; intros Hin.
  - exact (Keep r (Inv r Hin)).
  - apply in_app_or in Hin. destruct Hin as [Hin | [<- | []]];
      [exact (Keep r (Inv r Hin))|].
    exists (utcnow_calls s), (S (utcnow_calls s)). rewrite C.
    repeat split; lia.
  - apply in_map_iff in Hin. destruct Hin as (y & Hy & Hin).
    destruct (has_uuid u y); subst r; [|exact (Keep y (Inv y Hin))].
    destruct (Inv t (proj1 (find_has_uuid _ _ _ F))) as (i & j & Hij & Hj & Hc & _).
    destruct (flush_some _ _ Fl) as (_ & _ & _ & _ & Hcr & Hup).
    cbn [pending o_created_at o_updated_at] in Hcr, Hup.
    exists i, (utcnow_calls s). rewrite C, Hcr, Hup.
    repeat split; try lia; try exact Hc.
  - apply filter_In in Hin. exact (Keep r (Inv r (proj1 Hin))).
Qed.

(** With a clock that never runs backwards, every stored task of every
    session the service can reach has [created_at <= updated_at]. *)
Theorem reachable_created_before_updated (rt : Runtime) (s : Session)
    (r : TaskModel) :
  clock_monotone rt -> reachable rt s -> In r (tasks s) ->
  created_at r <= updated_at r.
Proof.
  intros Hclock Hreach Hin.
  destruct (reachable_timestamps_read rt s r Hreach Hin)
    as (i & j & Hij & _ & -> & ->).
  apply Hclock. exact Hij.
Qed.

Lemma reachable_created_before_updated_witness :
  created_at milk_row <= updated_at milk_row.
Proof.
  apply (reachable_created_before_updated demo one_task milk_row).
  - intros i j H. unfold demo, utcnow. lia.
  - exists [ReqCreate milk]. vm_compute. reflexivity.
  - left. vm_compute. reflexivity.
Defined.

(** ** Creation and update, edge cases *)

(** A create body that validation refuses ends in the validation failure
    with the session untouched: nothing is stored, no identifier is drawn
    and the clock is not read. *)
Theorem create_invalid_body_rejected (rt : Runtime) (body : create_body)
    (s : Session) :
  invalid_create body ->
  POST_tasks rt body s = (inl RequestValidationError, s).
Proof.
  intros H. unfold POST_tasks.
  assert (parse_TaskCreate body = None) as ->; [|reflexivity].
  unfold parse_TaskCreate.
  destruct H as [-> | [(j & -> & Hj) | [(n & -> & Hn) | [(d & Hd & Hlen) | (j & Hd & Hnull & Hj)]]]].
  - reflexivity.
  - destruct j as [|n|z|b]; try reflexivity. now destruct (Hj n).
  - cbn [validate_str]. rewrite Hn. reflexivity.
  - rewrite Hd. cbn [validate_optional_str]. rewrite Hlen.
    destruct (cb_name body) as [jn|]; [|reflexivity].
    destruct (validate_str 1 255 jn); reflexivity.
  - rewrite Hd.
    destruct (cb_name body) as [jn|]; [|reflexivity].
    destruct (validate_str 1 255 jn); [|reflexivity].
    destruct j as [|x|z|b]; try reflexivity; [now destruct Hnull | now destruct (Hj x)].
Qed.

Lemma create_invalid_body_rejected_witness :
  POST_tasks demo (body_of "" (Some "Test")) one_task
  = (inl RequestValidationError, one_task).
Proof.
  apply (create_invalid_body_rejected demo (body_of "" (Some "Test")) one_task).
  right. right. left. exists "". split; reflexivity.
Defined.

(** A status text is decoded to a member exactly when it is that member's
    value: the three values and nothing else are accepted. *)
Theorem TaskStatus_of_value_iff (s : string) (st : TaskStatus) :
  TaskStatus_of_value s = Some st <-> s = TaskStatus_value st.
Proof.
  split; [|intros ->; apply TaskStatus_of_value_value].
  unfold TaskStatus_of_value.
  destruct (String.eqb s "created") eqn:E1.
  { apply String.eqb_eq in E1. intros E; inversion E; subst. reflexivity. }
  destruct (String.eqb s "in_progress") eqn:E2.
  { apply String.eqb_eq in E2. intros E; inversion E; subst. reflexivity. }
  destruct (String.eqb s "completed") eqn:E3.
  { apply String.eqb_eq in E3. intros E; inversion E; subst. reflexivity. }
  discriminate.
Qed.

Lemma PUT_task_committed (rt : Runtime) (task_uuid : string) (u : UUID)
    (body : update_body) (p : TaskUpdate) (s : Session) (t row : TaskModel) :
  uuid_of_path rt task_uuid = Some u ->
  parse_TaskUpdate body = Some p ->
  find (has_uuid u) (tasks s) = Some t ->
  flush (pending t p (utcnow rt (utcnow_calls s))) = Some row ->
  PUT_task rt task_uuid body s = (inr row, after_update rt u row s)
  /\ find (has_uuid u) (tasks (after_update rt u row s)) = Some row.
Proof.
  intros Hid P F E. unfold PUT_task. rewrite Hid, P.
  rewrite (update_task_found rt u p s t F). cbv zeta. rewrite E.
  rewrite (flush_load _ _ E).
  split; [reflexivity|]. unfold after_update. cbn [tasks with_tasks with_statement].
  apply (find_rewritten u row t); [|exact F].
  exact (flushed_uuid _ _ _ _ _ _ F E).
Qed.

Lemma parse_status_patch (st : TaskStatus) :
  parse_TaskUpdate (status_patch st)
  = Some {| tu_name := Unset; tu_description := Unset; tu_status := SetTo (Some st) |}.
Proof. destruct st; reflexivity. Qed.

(** Every status is a legal target from every status: for a stored task
    and any of the three values, the update that sends only that status
    succeeds, the returned and stored task has it, and name, description
    and [created_at] are as before. *)
Theorem update_status_any_transition (rt : Runtime) (task_uuid : string)
    (u : UUID) (s : Session) (t : TaskModel) (st : TaskStatus) :
  uuid_of_path rt task_uuid = Some u ->
  find (has_uuid u) (tasks s) = Some t ->
  exists t' s',
    PUT_task rt task_uuid (status_patch st) s = (inr t', s')
    /\ find (has_uuid u) (tasks s') = Some t'
    /\ status t' = st
    /\ name t' = name t /\ description t' = description t
    /\ created_at t' = created_at t.
Proof.
  intros Hid F.
  destruct (PUT_task_committed rt task_uuid u (status_patch st) _ s t
              {| uuid := uuid t; name := name t; description := description t;
                 status := st; created_at := created_at t;
                 updated_at := utcnow rt (utcnow_calls s) |}
              Hid (parse_status_patch st) F eq_refl) as [H1 H2].
  eexists _, _. split; [exact H1|]. split; [exact H2|]. repeat split.
Qed.

Lemma update_status_any_transition_witness :
  exists t' s',
    PUT_task demo uuid_0 (status_patch CREATED)
      (snd (PUT_task demo uuid_0 complete_patch one_task)) = (inr t', s')
    /\ find (has_uuid (uuid4 demo 0)) (tasks s') = Some t'
    /\ status t' = CREATED
    /\ name t' = name completed_row /\ description t' = description completed_row
    /\ created_at t' = created_at completed_row.
Proof.
  apply (update_status_any_transition demo uuid_0 (uuid4 demo 0)
           (snd (PUT_task demo uuid_0 complete_patch one_task)) completed_row CREATED).
  - vm_compute. reflexivity.
  - vm_compute. reflexivity.
Defined.

(** An update whose patch has no field at all still succeeds on a stored
    task: the task keeps every field and only [updated_at] is set to the
    clock reading of the update. *)
Theorem update_empty_patch (rt : Runtime) (task_uuid : string) (u : UUID)
    (s : Session) (t : TaskModel) :
  uuid_of_path rt task_uuid = Some u ->
  find (has_uuid u) (tasks s) = Some t ->
  exists s',
    PUT_task rt task_uuid empty_patch s
    = (inr (touched t (utcnow rt (utcnow_calls s))), s')
    /\ find (has_uuid u) (tasks s') = Some (touched t (utcnow rt (utcnow_calls s))).
Proof.
  intros Hid F.
  destruct (PUT_task_committed rt task_uuid u empty_patch _ s t
              (touched t (utcnow rt (utcnow_calls s)))
              Hid eq_refl F eq_refl) as [H1 H2].
  eexists. split; [exact H1 | exact H2].
Qed.

Lemma update_empty_patch_witness :
  exists s',
    PUT_task demo uuid_0 empty_patch one_task
    = (inr (touched milk_row (utcnow demo (utcnow_calls one_task))), s')
    /\ find (has_uuid (uuid4 demo 0)) (tasks s')
       = Some (touched milk_row (utcnow demo (utcnow_calls one_task))).
Proof.
  apply (update_empty_patch demo uuid_0 (uuid4 demo 0) one_task milk_row).
  - vm_compute. reflexivity.
  - vm_compute. reflexivity.
Defined.

(** ** Deletion, and requests that fail *)

Lemma find_after_delete_other (u v : UUID) (rows : list TaskModel) :
  v <> u ->
  find (has_uuid v) (filter (fun r => negb (has_uuid u r)) rows)
  = find (has_uuid v) rows.
Proof.
  intros Hne. induction rows as [|r rows IH]; cbn; [reflexivity|].
  destruct (has_uuid u r) eqn:E; cbn.
  - apply has_uuid_true in E.
    assert (has_uuid v r = false) as ->; [|exact IH].
    apply not_true_is_false. intros C. apply has_uuid_true in C. congruence.
  - destruct (has_uuid v r); [reflexivity | exact IH].
Qed.

Lemma filter_keeps_all (p : TaskModel -> bool) (rows : list TaskModel) :
  (forall r, In r rows -> p r = true) -> filter p rows = rows.
Proof.
  induction rows as [|r rows IH]; intros H; cbn; [reflexivity|].
  rewrite (H r (or_introl eq_refl)). f_equal. apply IH.
  intros x Hx. apply H. right. exact Hx.
Qed.

Lemma length_after_delete (u : UUID) (t : TaskModel) (rows : list TaskModel) :
  NoDup (map uuid rows) ->
  find (has_uuid u) rows = Some t ->
  S (List.length (filter (fun r => negb (has_uuid u r)) rows)) = List.length rows.
Proof.
  induction rows as [|r rows IH]; cbn; [discriminate|].
  intros Hnd F. inversion Hnd as [|? ? Hr Hnd']; subst.
  destruct (has_uuid u r) eqn:E; cbn.
  - rewrite filter_keeps_all; [reflexivity|].
    intros x Hx. apply negb_true_iff, not_true_is_false. intros C.
    apply has_uuid_true in C. apply has_uuid_true in E.
    apply Hr. apply in_map_iff. exists x. split; [congruence | exact Hx].
  - f_equal. apply IH; assumption.
Qed.

(** A successful delete removes exactly the addressed task: in a reachable
    session the table has one row fewer, every task with another
    identifier is found as before, and no identifier is drawn and the
    clock is not read. *)
Theorem delete_removes_only_target (rt : Runtime) (task_uuid : string) (u : UUID)
    (s s1 : Session) :
  reachable rt s ->
  uuid_of_path rt task_uuid = Some u ->
  DELETE_task rt task_uuid s = (inr tt, s1) ->
  S (List.length (tasks s1)) = List.length (tasks s)
  /\ find (has_uuid u) (tasks s1) = None
  /\ (forall v, v <> u -> find (has_uuid v) (tasks s1) = find (has_uuid v) (tasks s))
  /\ uuid4_calls s1 = uuid4_calls s
  /\ utcnow_calls s1 = utcnow_calls s.
Proof.
  intros Hreach Hid H. unfold DELETE_task in H. rewrite Hid in H.
  destruct (find (has_uuid u) (tasks s)) as [t|] eqn:F.
  - rewrite (delete_task_found u s t F) in H. inversion H; subst s1; clear H.
    cbn [tasks with_tasks with_statement uuid4_calls utcnow_calls].
    split; [|split; [|split; [|split; reflexivity]]].
    + exact (length_after_delete u t (tasks s) (reachable_NoDup_uuid rt s Hreach) F).
    + apply find_after_delete.
    + intros v Hv. apply find_after_delete_other. exact Hv.
  - rewrite (delete_task_missing u s F) in H. discriminate.
Qed.

Lemma delete_removes_only_target_witness :
  S (List.length (tasks after_delete)) = List.length (tasks one_task)
  /\ find (has_uuid (uuid4 demo 0)) (tasks after_delete) = None
  /\ (forall v, v <> uuid4 demo 0 ->
        find (has_uuid v) (tasks after_delete) = find (has_uuid v) (tasks one_task))
  /\ uuid4_calls after_delete = uuid4_calls one_task
  /\ utcnow_calls after_delete = utcnow_calls one_task.
Proof.
  apply (delete_removes_only_target demo uuid_0 (uuid4 demo 0) one_task after_delete).
  - exists [ReqCreate milk]. vm_compute. reflexivity.
  - vm_compute. reflexivity.
  - vm_compute. reflexivity.
Defined.

(** A delete request whose identifier does not decode ends in the
    validation failure with the session untouched; with a well-formed
    identifier that no stored task carries it ends in NotFoundError and the
    table is unchanged. *)
Theorem delete_task_failures (rt : Runtime) (task_uuid : string) (s : Session) :
  (uuid_of_path rt task_uuid = None ->
     DELETE_task rt task_uuid s = (inl RequestValidationError, s))
  /\ (forall u, uuid_of_path rt task_uuid = Some u ->
        (forall r, In r (tasks s) -> uuid r <> u) ->
        fst (DELETE_task rt task_uuid s) = inl NotFoundError
        /\ tasks (snd (DELETE_task rt task_uuid s)) = tasks s).
Proof.
  unfold DELETE_task. split.
  - intros ->. reflexivity.
  - intros u -> Hno. apply no_row_find in Hno.
    rewrite (delete_task_missing u s Hno). split; reflexivity.
Qed.

Lemma delete_task_failures_witness :
  DELETE_task demo "invalid-uuid" one_task = (inl RequestValidationError, one_task)
  /\ fst (DELETE_task demo uuid_1 one_task) = inl NotFoundError
  /\ tasks (snd (DELETE_task demo uuid_1 one_task)) = tasks one_task.
Proof.
  split.
  - apply (proj1 (delete_task_failures demo "invalid-uuid" one_task)).
    vm_compute. reflexivity.
  - apply (proj2 (delete_task_failures demo uuid_1 one_task) (uuid4 demo 1)).
    + vm_compute. reflexivity.
    + intros r [<- | []]. vm_compute. discriminate.
Defined.

(** Whatever the endpoint, a request that ends in a failure leaves the
    table as it was. *)
Theorem failure_keeps_table (rt : Runtime) (s : Session) :
  (forall body e s', POST_tasks rt body s = (inl e, s') -> tasks s' = tasks s)
  /\ (forall task_uuid e s', GET_task rt task_uuid s = (inl e, s') -> tasks s' = tasks s)
  /\ (forall p e s', GET_tasks p s = (inl e, s') -> tasks s' = tasks s)
  /\ (forall task_uuid body e s',
        PUT_task rt task_uuid body s = (inl e, s') -> tasks s' = tasks s)
  /\ (forall task_uuid e s',
        DELETE_task rt task_uuid s = (inl e, s') -> tasks s' = tasks s).
Proof.
  split; [|split; [|split; [|split]]].
  - intros body e s'. unfold POST_tasks.
    destruct (parse_TaskCreate body) as [task|].
    + destruct (find (has_uuid (uuid4 rt (uuid4_calls s))) (tasks s)) as [x|] eqn:F.
      * rewrite (create_task_collision rt task s x F).
        intros E; inversion E; reflexivity.
      * rewrite (create_task_fresh rt task s F). discriminate.
    + intros E; inversion E; reflexivity.
  - intros raw e s'. unfold GET_task. destruct (uuid_of_path rt raw) as [u|].
    + destruct (find (has_uuid u) (tasks s)) as [t|] eqn:F.
      * rewrite (get_task_found u s t F). discriminate.
      * rewrite (get_task_missing u s F). intros E; inversion E; reflexivity.
    + intros E; inversion E; reflexivity.
  - intros p e s'. unfold GET_tasks.
    destruct (parse_status_param (lp_status p)) as [st|].
    + intros E. rewrite <- (f_equal snd E : snd (get_tasks _ _ st s) = s').
      rewrite get_tasks_keeps_session. reflexivity.
    + intros E; inversion E; reflexivity.
  - intros raw body e s'. unfold PUT_task.
    destruct (uuid_of_path rt raw) as [u|];
      [destruct (parse_TaskUpdate body) as [p|]|].
    + destruct (find (has_uuid u) (tasks s)) as [t|] eqn:F.
      * rewrite (update_task_found rt u p s t F). cbv zeta.
        destruct (flush (pending t p (utcnow rt (utcnow_calls s)))) as [row|].
        -- discriminate.
        -- intros E; inversion E; reflexivity.
      * rewrite (update_task_missing rt u p s F).
        intros E; inversion E; reflexivity.
    + intros E; inversion E; reflexivity.
    + intros E; inversion E; reflexivity.
  - intros raw e s'. unfold DELETE_task. destruct (uuid_of_path rt raw) as [u|].
    + destruct (find (has_uuid u) (tasks s)) as [t|] eqn:F.
      * rewrite (delete_task_found u s t F). discriminate.
      * rewrite (delete_task_missing u s F). intros E; inversion E; reflexivity.
    + intros E; inversion E; reflexivity.
Qed.

Lemma failure_keeps_table_witness :
  tasks (snd (PUT_task demo uuid_0 null_name_patch one_task)) = tasks one_task.
Proof.
  apply (proj1 (proj2 (proj2 (proj2 (failure_keeps_table demo one_task))))
           uuid_0 null_name_patch IntegrityError).
  vm_compute. reflexivity.
Defined.

Lemma parse_name_patch (n : string) :
  length_ok 1 255 n = true ->
  parse_TaskUpdate (name_patch n)
  = Some {| tu_name := SetTo (Some n); tu_description := Unset; tu_status := Unset |}.
Proof.
  intros H. unfold parse_TaskUpdate, name_patch;
    cbn [ub_name ub_description ub_status parse_field validate_optional_str].
  rewrite H. reflexivity.
Qed.

(** Two updates of the name of a stored task, one after the other, both
    succeed, and the task read back afterwards carries the second name,
    with description, status and [created_at] as before the two updates. *)
Theorem update_last_write_wins (rt : Runtime) (task_uuid : string) (u : UUID)
    (s : Session) (t : TaskModel) (n1 n2 : string) :
  uuid_of_path rt task_uuid = Some u ->
  find (has_uuid u) (tasks s) = Some t ->
  length_ok 1 255 n1 = true ->
  length_ok 1 255 n2 = true ->
  exists t1 s1 t2 s2,
    PUT_task rt task_uuid (name_patch n1) s = (inr t1, s1)
    /\ PUT_task rt task_uuid (name_patch n2) s1 = (inr t2, s2)
    /\ fst (GET_task rt task_uuid s2) = inr t2
    /\ name t1 = n1 /\ name t2 = n2
    /\ description t2 = description t /\ status t2 = status t
    /\ created_at t2 = created_at t.
Proof.
  intros Hid F H1 H2.
  destruct (PUT_task_committed rt task_uuid u (name_patch n1) _ s t
              {| uuid := uuid t; name := n1; description := description t;
                 status := status t; created_at := created_at t;
                 updated_at := utcnow rt (utcnow_calls s) |}
              Hid (parse_name_patch n1 H1) F eq_refl) as [P1 F1].
  match type of F1 with find _ (tasks ?x) = Some ?y =>
    set (s1 := x) in *; set (t1 := y) in * end.
  destruct (PUT_task_committed rt task_uuid u (name_patch n2) _ s1 t1
              {| uuid := uuid t1; name := n2; description := description t1;
                 status := status t1; created_at := created_at t1;
                 updated_at := utcnow rt (utcnow_calls s1) |}
              Hid (parse_name_patch n2 H2) F1 eq_refl) as [P2 F2].
  match type of F2 with find _ (tasks ?x) = Some ?y =>
    set (s2 := x) in *; set (t2 := y) in * end.
  exists t1, s1, t2, s2. split; [exact P1|]. split; [exact P2|].
  split.
  - unfold GET_task. rewrite Hid, (get_task_found u s2 t2 F2). reflexivity.
  - repeat split.
Qed.

Lemma update_last_write_wins_witness :
  exists t1 s1 t2 s2,
    PUT_task demo uuid_0 (name_patch "Update 1") one_task = (inr t1, s1)
    /\ PUT_task demo uuid_0 (name_patch "Update 2") s1 = (inr t2, s2)
    /\ fst (GET_task demo uuid_0 s2) = inr t2
    /\ name t1 = "Update 1" /\ name t2 = "Update 2"
    /\ description t2 = description milk_row /\ status t2 = status milk_row
    /\ created_at t2 = created_at milk_row.
Proof.
  apply (update_last_write_wins demo uuid_0 (uuid4 demo 0) one_task milk_row
           "Update 1" "Update 2").
  - vm_compute. reflexivity.
  - vm_compute. reflexivity.
  - reflexivity.
  - reflexivity.
Defined.

(** A patch in which a text is outside its bounds or the status is not one
    of the three values is refused as a whole, for a stored task as for a
    missing one: the answer is the validation failure and the session is
    untouched. *)
Theorem update_invalid_patch_rejected (rt : Runtime) (task_uuid : string)
    (body : update_body) (s : Session) :
  violates_text 1 255 (ub_name body)
  \/ violates_text 0 1000 (ub_description body)
  \/ violates_status (ub_status body) ->
  PUT_task rt task_uuid body s = (inl RequestValidationError, s).
Proof.
  intros H. unfold PUT_task. rewrite (parse_TaskUpdate_rejects body H).
  destruct (uuid_of_path rt task_uuid); reflexivity.
Qed.

Lemma update_invalid_patch_rejected_witness :
  PUT_task demo uuid_0 unknown_status_patch one_task
  = (inl RequestValidationError, one_task).
Proof.
  apply (update_invalid_patch_rejected demo uuid_0 unknown_status_patch one_task).
  right. right. exists "invalid_status". split; reflexivity.
Defined.

(** A patch that passes validation and carries [null] for the name or for
    the status, sent to a stored task, is not rejected by validation: after
    the lookup and one clock reading the UPDATE is handed to the database
    with the [None] in it, the database refuses it and [commit] fails with
    the integrity failure; the table is as before. *)
Theorem update_null_required_field_fails (rt : Runtime) (task_uuid : string)
    (u : UUID) (body : update_body) (p : TaskUpdate) (s : Session) (t : TaskModel) :
  uuid_of_path rt task_uuid = Some u ->
  find (has_uuid u) (tasks s) = Some t ->
  parse_TaskUpdate body = Some p ->
  ub_name body = Some JNull \/ ub_status body = Some JNull ->
  PUT_task rt task_uuid body s
  = (inl IntegrityError,
     with_statement (UPDATE (pending t p (utcnow rt (utcnow_calls s))))
       (utcnow_called (with_statement (lookup u) s)))
  /\ (o_name (pending t p (utcnow rt (utcnow_calls s))) = None
      \/ o_status (pending t p (utcnow rt (utcnow_calls s))) = None)
  /\ tasks (snd (PUT_task rt task_uuid body s)) = tasks s.
Proof.
  intros Hid F P H. unfold PUT_task. rewrite Hid, P.
  rewrite (update_task_found rt u p s t F). cbv zeta.
  destruct (parse_TaskUpdate_fields _ _ P) as (En & _ & Es).
  assert (tu_name p = SetTo None \/ tu_status p = SetTo None) as N.
  { destruct H as [H | H]; [left; rewrite H in En | right; rewrite H in Es];
      cbn in *; congruence. }
  assert (flush (pending t p (utcnow rt (utcnow_calls s))) = None) as ->.
  { destruct N as [N | N];
      [apply flush_pending_null_name | apply flush_pending_null_status]; exact N. }
  split; [reflexivity|]. split; [|reflexivity].
  unfold pending; cbn [o_name o_status].
  destruct N as [-> | ->]; [left | right]; reflexivity.
Qed.

Lemma update_null_required_field_fails_witness :
  PUT_task demo uuid_0 null_status_patch one_task
  = (inl IntegrityError,
     with_statement
       (UPDATE (pending milk_row
                  {| tu_name := Unset; tu_description := Unset; tu_status := SetTo None |}
                  (utcnow demo (utcnow_calls one_task))))
       (utcnow_called (with_statement (lookup (uuid4 demo 0)) one_task)))
  /\ (o_name (pending milk_row
                {| tu_name := Unset; tu_description := Unset; tu_status := SetTo None |}
                (utcnow demo (utcnow_calls one_task))) = None
      \/ o_status (pending milk_row
                     {| tu_name := Unset; tu_description := Unset; tu_status := SetTo None |}
                     (utcnow demo (utcnow_calls one_task))) = None)
  /\ tasks (snd (PUT_task demo uuid_0 null_status_patch one_task)) = tasks one_task.
Proof.
  apply (update_null_required_field_fails demo uuid_0 (uuid4 demo 0) null_status_patch
           {| tu_name := Unset; tu_description := Unset; tu_status := SetTo None |}
           one_task milk_row).
  - vm_compute. reflexivity.
  - vm_compute. reflexivity.
  - reflexivity.
  - right. reflexivity.
Defined.

(** A list call whose skip or limit is outside the signed 64-bit range is
    not answered with a page: binding the value raises the overflow error,
    and the table is as before. *)
Theorem list_out_of_range_overflows (skip lim : option Z) (st : option TaskStatus)
    (s : Session) :
  sqlite_integer (default 0 skip) && sqlite_integer (default 100 lim) = false ->
  fst (GET_tasks (params_of skip lim st) s) = inl OverflowError
  /\ tasks (snd (GET_tasks (params_of skip lim st) s)) = tasks s.
Proof.
  intros H. rewrite GET_tasks_spec, get_tasks_outcome, H. split; reflexivity.
Qed.

Lemma list_out_of_range_overflows_witness :
  fst (GET_tasks (params_of (Some (- 2 ^ 63 - 1)) None None) one_task)
  = inl OverflowError
  /\ tasks (snd (GET_tasks (params_of (Some (- 2 ^ 63 - 1)) None None) one_task))
     = tasks one_task.
Proof.
  apply (list_out_of_range_overflows (Some (- 2 ^ 63 - 1)) None None one_task).
  vm_compute. reflexivity.
Defined.
